(** * The UNYCompass chatbot gateway: ai-backend/api/flask_api.py

    A shallow embedding of the Flask application and the properties of
    its HTTP contract.  The chatbot itself (module hunter_ai) is an
    external collaborator: it appears here as an interface whose
    operations either return or raise. *)

From Stdlib Require Import List String Ascii ZArith NArith Bool Lia.
From Stdlib Require Import DecimalN SpecFloat.
Import ListNotations.

Local Open Scope list_scope.

(** ** Python text *)

(** A Python [str] is a sequence of Unicode code points. *)
Definition codepoint := N.
Definition str := list codepoint.

(** A literal of the source (the literals used below are ASCII). *)
Definition lit (s : string) : str :=
  map N_of_ascii (list_ascii_of_string s).

Fixpoint str_eqb (a b : str) : bool :=
  match a, b with
  | [], [] => true
  | x :: a', y :: b' => N.eqb x y && str_eqb a' b'
  | _, _ => false
  end.

(** [str.isspace] on one code point: the characters [str.strip()]
    removes when called without an argument. *)
Definition isspace (c : codepoint) : bool :=
  ((9 <=? c) && (c <=? 13) || (28 <=? c) && (c <=? 32)
   || (c =? 133) || (c =? 160) || (c =? 5760)
   || (8192 <=? c) && (c <=? 8202)
   || (c =? 8232) || (c =? 8233) || (c =? 8239) || (c =? 8287)
   || (c =? 12288))%N.

(** A surrogate code point (U+D800 to U+DFFF).  JSON text can put one
    alone into a string (["\ud800"]), and no UTF codec encodes it. *)
Definition is_surrogate (c : codepoint) : bool :=
  ((55296 <=? c) && (c <=? 57343))%N.

Fixpoint lstrip (s : str) : str :=
  match s with
  | c :: s' => if isspace c then lstrip s' else s
  | [] => []
  end.

Definition rstrip (s : str) : str := rev (lstrip (rev s)).

(** [s.strip()] *)
Definition strip (s : str) : str := rstrip (lstrip s).

(** [prefix in s] at position 0, and [s.endswith(suffix)]. *)
Fixpoint startswith (p s : str) : bool :=
  match p, s with
  | [], _ => true
  | x :: p', y :: s' => N.eqb x y && startswith p' s'
  | _ :: _, [] => false
  end.

Definition endswith (suffix s : str) : bool :=
  startswith (rev suffix) (rev s).

(** [needle in haystack] for two strings. *)
Fixpoint str_contains (needle s : str) : bool :=
  startswith needle s
  || match s with
     | [] => false
     | _ :: s' => str_contains needle s'
     end.

(** [str(n)] for a non-negative [int]. *)
Fixpoint str_of_uint (d : Decimal.uint) : str :=
  match d with
  | Decimal.Nil => []
  | Decimal.D0 d => 48%N :: str_of_uint d
  | Decimal.D1 d => 49%N :: str_of_uint d
  | Decimal.D2 d => 50%N :: str_of_uint d
  | Decimal.D3 d => 51%N :: str_of_uint d
  | Decimal.D4 d => 52%N :: str_of_uint d
  | Decimal.D5 d => 53%N :: str_of_uint d
  | Decimal.D6 d => 54%N :: str_of_uint d
  | Decimal.D7 d => 55%N :: str_of_uint d
  | Decimal.D8 d => 56%N :: str_of_uint d
  | Decimal.D9 d => 57%N :: str_of_uint d
  end.

Definition str_of_int (n : N) : str := str_of_uint (N.to_uint n).

(** ** JSON values, as [request.get_json()] and [jsonify] see them *)

(** [JNull] is Python's [None].  An object is a [dict]: the first
    binding of a key in the list is the one the dict holds. *)
#[warnings="-register-all"]
Inductive json : Type :=
| JNull
| JBool (b : bool)
| JInt (n : Z)
| JFloat (f : spec_float)
| JStr (s : str)
| JArr (l : list json)
| JObj (kvs : list (str * json)).

Fixpoint assoc (k : str) (kvs : list (str * json)) : option json :=
  match kvs with
  | [] => None
  | (k', v) :: rest => if str_eqb k k' then Some v else assoc k rest
  end.

(** The value of a key of a JSON object; [None] when the value is not an
    object or has no such key. *)
Definition field (k : str) (v : json) : option json :=
  match v with
  | JObj kvs => assoc k kvs
  | _ => None
  end.

(** Truth value of a Python object ([bool(v)]). *)
Definition truthy (v : json) : bool :=
  match v with
  | JNull => false
  | JBool b => b
  | JInt n => negb (Z.eqb n 0)
  | JFloat (S754_zero _) => false
  | JFloat _ => true
  | JStr s => match s with [] => false | _ => true end
  | JArr l => match l with [] => false | _ => true end
  | JObj kvs => match kvs with [] => false | _ => true end
  end.

(** The name Python gives the type of a value ([type(v).__name__]). *)
Definition type_name (v : json) : str :=
  match v with
  | JNull => lit "NoneType"
  | JBool _ => lit "bool"
  | JInt _ => lit "int"
  | JFloat _ => lit "float"
  | JStr _ => lit "str"
  | JArr _ => lit "list"
  | JObj _ => lit "dict"
  end.

(** ** Regular expressions: the fragment of [re] the gateway uses *)

Inductive regex : Type :=
| Void                          (* matches nothing *)
| Eps                           (* the empty pattern *)
| Chr (c : codepoint)           (* a literal character, escaped or not *)
| Dot                           (* [.]: any character but a newline *)
| Seq (r1 r2 : regex)
| Alt (r1 r2 : regex)
| Star (r : regex).

(** The strings a pattern matches in full. *)
Inductive matches : regex -> str -> Prop :=
| m_eps : matches Eps []
| m_chr c : matches (Chr c) [c]
| m_dot c : c <> 10%N -> matches Dot [c]
| m_seq r1 r2 s1 s2 :
    matches r1 s1 -> matches r2 s2 -> matches (Seq r1 r2) (s1 ++ s2)
| m_alt_l r1 r2 s : matches r1 s -> matches (Alt r1 r2) s
| m_alt_r r1 r2 s : matches r2 s -> matches (Alt r1 r2) s
| m_star_nil r : matches (Star r) []
| m_star_cons r s1 s2 :
    matches r s1 -> matches (Star r) s2 -> matches (Star r) (s1 ++ s2).

Fixpoint nullable (r : regex) : bool :=
  match r with
  | Void => false
  | Eps => true
  | Chr _ => false
  | Dot => false
  | Seq r1 r2 => nullable r1 && nullable r2
  | Alt r1 r2 => nullable r1 || nullable r2
  | Star _ => true
  end.

(** The pattern left to match once [c] has been read. *)
Fixpoint deriv (c : codepoint) (r : regex) : regex :=
  match r with
  | Void => Void
  | Eps => Void
  | Chr c' => if N.eqb c c' then Eps else Void
  | Dot => if N.eqb c 10 then Void else Eps
  | Seq r1 r2 =>
      if nullable r1
      then Alt (Seq (deriv c r1) r2) (deriv c r2)
      else Seq (deriv c r1) r2
  | Alt r1 r2 => Alt (deriv c r1) (deriv c r2)
  | Star r1 => Seq (deriv c r1) (Star r1)
  end.

(** [bool(re.match(r, s))]: the pattern matches some prefix of [s]
    (the match is anchored at the start of [s] only). *)
Fixpoint re_match (r : regex) (s : str) : bool :=
  nullable r
  || match s with
     | [] => false
     | c :: s' => re_match (deriv c r) s'
     end.

(** A run of literal characters. *)
Fixpoint chars (s : str) : regex :=
  match s with
  | [] => Eps
  | c :: s' => Seq (Chr c) (chars s')
  end.

(** ** Exceptions and the collaborator (module hunter_ai) *)

(** A raised exception: the name of its class, [str(e)], and whether
    the class derives from [Exception].  [SystemExit],
    [KeyboardInterrupt] and the other classes that derive from
    [BaseException] only are not caught by [except Exception]. *)
Record exception : Type := BaseException {
  exc_class : str;
  exc_text : str;
  derives_from_Exception : bool
}.

(** An exception of a class that derives from [Exception]. *)
Definition Exc (class text : str) : exception :=
  {| exc_class := class; exc_text := text; derives_from_Exception := true |}.

Inductive outcome (A : Type) : Type :=
| Returns (a : A)
| Raises (e : exception).
Arguments Returns {A} a.
Arguments Raises {A} e.

(** The console [print] writes to: [sys.stdout], with the encoding and
    the error handler of the process.  The module prints an emoji
    before anything else, so a console it starts on encodes every
    character of Unicode; what it may still refuse is a lone
    surrogate, which UTF-8 does with the error handler [strict].  A
    console that fails for another reason, such as a closed pipe, is
    not modelled. *)
Class Console : Type := {
  console_refuses : codepoint -> bool;
  console_takes_text :
    forall c, console_refuses c = true -> is_surrogate c = true
}.

(** The two classes the gateway imports.  A method takes the state of
    the bot object and gives the state the call leaves behind; the
    session identifier of [answer_question] is [None] when the call
    passes no [session_id] keyword.

    The gateway exists once the module has been imported.  The import
    ends the process instead when a constructor raises an exception that
    [except Exception] does not catch, or one whose text the [print] of
    the handler cannot write on the console; [module_starts] says that
    neither is the case. *)
Class Collaborator (Database Bot : Type) {console : Console} : Type := {
  UNYCompassDatabase : outcome Database;
  UNYCompassBot : Database -> outcome Bot;
  answer_question : Bot -> str -> option json -> outcome json * Bot;
  clear_session_memory : Bot -> N -> outcome unit * Bot;
  module_starts :
    forall e,
      UNYCompassDatabase = Raises e \/
      (exists db, UNYCompassDatabase = Returns db /\
                  UNYCompassBot db = Raises e) ->
      derives_from_Exception e = true /\
      existsb console_refuses (exc_text e) = false
}.

(** What a request does to the collaborator. *)
Inductive call : Type :=
| Call_answer_question (question : str) (session_id : option json)
| Call_clear_session_memory (session_id : N).

Record event : Type := Event { ev_call : call; ev_raised : option exception }.

Definition raised {A : Type} (r : outcome A) : option exception :=
  match r with
  | Returns _ => None
  | Raises e => Some e
  end.

(** ** Requests and responses *)

Inductive http_method : Type :=
| GET | HEAD | POST | PUT | DELETE | OPTIONS | PATCH.

Definition http_method_eqb (a b : http_method) : bool :=
  match a, b with
  | GET, GET | HEAD, HEAD | POST, POST | PUT, PUT
  | DELETE, DELETE | OPTIONS, OPTIONS | PATCH, PATCH => true
  | _, _ => false
  end.

(** The rules registered with [@app.route], with the value the
    [<int:session_id>] converter extracts from the path. *)
Inductive rule : Type :=
| rule_health_check            (* '/' *)
| rule_chat                    (* '/chat' *)
| rule_status                  (* '/status' *)
| rule_chatbot_status          (* '/api/chatbot/status' *)
| rule_chatbot_ask             (* '/api/chatbot/ask' *)
| rule_reset_session_memory (session_id : N)
                               (* '/api/chatbot/reset/<int:session_id>' *).

(** The [methods=] argument of each rule. *)
Definition methods (r : rule) : list http_method :=
  match r with
  | rule_health_check => [GET]
  | rule_chat => [POST]
  | rule_status => [GET]
  | rule_chatbot_status => [GET; OPTIONS]
  | rule_chatbot_ask => [POST; OPTIONS]
  | rule_reset_session_memory _ => [POST]
  end.

(** Flask's [request] while one request is served: [url_rule] is the
    rule its path matches ([None]: no rule does), [Origin] is
    [request.headers.get('Origin')], [get_json] is the value of
    [request.get_json()] and [datetime_now] the value of
    [str(datetime.now())].  The model covers the requests whose body
    [get_json] returns a value for.  For a body Flask refuses ([415] for
    a content type other than JSON, [400] for text that is not JSON)
    [get_json] raises an HTTP exception instead, nothing else of the
    handler runs, and Flask sends its own error page; such requests are
    not modelled, and no property here speaks of them. *)
Record request : Type := {
  method : http_method;
  url_rule : option rule;
  Origin : option str;
  get_json : json;
  datetime_now : str
}.

Inductive body : Type :=
| Text (s : str)        (* a body given as a string *)
| Json (v : json)       (* [jsonify(v)] *)
| ErrorPage.            (* the page Flask renders for an HTTP error *)

Record response : Type := {
  status_code : N;
  response_body : body;
  headers : list (str * str)
}.

Definition jsonify (v : json) : response :=
  {| status_code := 200; response_body := Json v; headers := [] |}.

(** A view returning [(rv, status)]. *)
Definition with_status (rv : response) (code : N) : response :=
  {| status_code := code; response_body := response_body rv;
     headers := headers rv |}.

Fixpoint header (name : str) (hs : list (str * str)) : option str :=
  match hs with
  | [] => None
  | (k, v) :: rest => if str_eqb name k then Some v else header name rest
  end.

(** [headers[name] = value] *)
Fixpoint set_header (name value : str) (hs : list (str * str))
  : list (str * str) :=
  match hs with
  | [] => [(name, value)]
  | (k, v) :: rest =>
      if str_eqb name k then (k, value) :: rest
      else (k, v) :: set_header name value rest
  end.

Definition with_header (name value : str) (rv : response) : response :=
  {| status_code := status_code rv; response_body := response_body rv;
     headers := set_header name value (headers rv) |}.

(** ** The gateway *)

Section Gateway.

Context {Database Bot : Type} {console : Console}.
Context {hunter_ai : Collaborator Database Bot}.

(** The module-level names the handlers read: the readiness flag, the
    captured error text ([None] is Python's [None]) and the bot object
    ([None] when initialization failed). *)
Record gateway : Type := {
  CHATBOT_READY : bool;
  CHATBOT_ERROR : option str;
  bot : option Bot
}.

(** The start of the module: "Initialize the chatbot ONCE when the
    server starts". *)
Definition initialize : gateway :=
  let failed (e : exception) :=
    {| CHATBOT_READY := false; CHATBOT_ERROR := Some (exc_text e);
       bot := None |} in
  match UNYCompassDatabase with
  | Raises e => failed e
  | Returns db =>
      match UNYCompassBot db with
      | Raises e => failed e
      | Returns b =>
          {| CHATBOT_READY := true; CHATBOT_ERROR := None; bot := Some b |}
      end
  end.

(** Construction of the collaborator fails with [e]: the database or,
    after it, the bot raises. *)
Definition construction_raises (e : exception) : Prop :=
  UNYCompassDatabase = Raises e \/
  exists db, UNYCompassDatabase = Returns db /\ UNYCompassBot db = Raises e.

(** The two states the start of the module can leave: ready, with a bot
    and no error text, or not ready, with the text of the exception that
    made the construction fail and no bot. *)
Definition as_initialized (g : gateway) : Prop :=
  (CHATBOT_READY g = true /\ CHATBOT_ERROR g = None /\
   exists b, bot g = Some b)
  \/ (CHATBOT_READY g = false /\
      (exists e, construction_raises e /\
                 CHATBOT_ERROR g = Some (exc_text e)) /\
      bot g = None).

(** Code that runs while a request is served: it reads [request], reads
    and updates the module state, may raise, and leaves a log of the
    collaborator calls it made. *)
Definition M (A : Type) : Type :=
  request -> gateway -> outcome A * gateway * list event.

Definition ret {A : Type} (a : A) : M A :=
  fun _ g => (Returns a, g, []).

Definition raise {A : Type} (e : exception) : M A :=
  fun _ g => (Raises e, g, []).

Definition bind {A B : Type} (m : M A) (k : A -> M B) : M B :=
  fun req g =>
    match m req g with
    | (Returns a, g1, t1) =>
        let '(r, g2, t2) := k a req g1 in (r, g2, t1 ++ t2)
    | (Raises e, g1, t1) => (Raises e, g1, t1)
    end.

(** [try: m  except Exception as e: h e]: an exception that does not
    derive from [Exception] goes on. *)
Definition try_except {A : Type} (m : M A) (h : exception -> M A) : M A :=
  fun req g =>
    match m req g with
    | (Raises e, g1, t1) =>
        if derives_from_Exception e then
          let '(r, g2, t2) := h e req g1 in (r, g2, t1 ++ t2)
        else (Raises e, g1, t1)
    | r => r
    end.

Definition the_request {A : Type} (f : request -> A) : M A :=
  fun req g => (Returns (f req), g, []).

Definition global {A : Type} (f : gateway -> A) : M A :=
  fun _ g => (Returns (f g), g, []).

Notation "x <- m ;; k" := (bind m (fun x => k))
  (at level 61, m at next level, right associativity).

(** *** Python operations on the values of a request *)

Definition TypeError (text : str) : exception :=
  Exc (lit "TypeError") text.

Definition KeyError (key : str) : exception :=
  Exc (lit "KeyError") (lit "'" ++ key ++ lit "'").

Definition AttributeError (type attr : str) : exception :=
  Exc (lit "AttributeError")
      (lit "'" ++ type ++ lit "' object has no attribute '" ++ attr ++ lit "'").

(** The text of the real exception also names the codec and the
    position of the character. *)
Definition UnicodeEncodeError : exception :=
  Exc (lit "UnicodeEncodeError") (lit "surrogates not allowed").

(** [key in data] *)
Definition contains (key : str) (data : json) : M bool :=
  match data with
  | JObj kvs =>
      ret (match assoc key kvs with Some _ => true | None => false end)
  | JArr l =>
      ret (existsb (fun v => match v with
                             | JStr s => str_eqb s key
                             | _ => false
                             end) l)
  | JStr s => ret (str_contains key s)
  | _ =>
      raise (TypeError (lit "argument of type '" ++ type_name data
                        ++ lit "' is not iterable"))
  end.

(** [data[key]] for a string [key] *)
Definition getitem (data : json) (key : str) : M json :=
  match data with
  | JObj kvs =>
      match assoc key kvs with
      | Some v => ret v
      | None => raise (KeyError key)
      end
  | JStr _ => raise (TypeError (lit "string indices must be integers"))
  | JArr _ =>
      raise (TypeError (lit "list indices must be integers or slices, not str"))
  | _ =>
      raise (TypeError (lit "'" ++ type_name data
                        ++ lit "' object is not subscriptable"))
  end.

(** [data.get(key)] *)
Definition get (data : json) (key : str) : M json :=
  match data with
  | JObj kvs =>
      ret (match assoc key kvs with Some v => v | None => JNull end)
  | _ => raise (AttributeError (type_name data) (lit "get"))
  end.

(** [question.strip()] *)
Definition strip_method (question : json) : M str :=
  match question with
  | JStr s => ret (strip s)
  | _ => raise (AttributeError (type_name question) (lit "strip"))
  end.

(** [not question or not question.strip()] *)
Definition is_blank (question : json) : M bool :=
  if negb (truthy question) then ret true
  else
    stripped <- strip_method question ;;
    ret (negb (truthy (JStr stripped))).

(** The characters of [str(v)] that a console can refuse: those of a
    string.  The text of any other value is built from [repr]s, which
    write a lone surrogate as an escape. *)
Definition raw_text (v : json) : str :=
  match v with
  | JStr s => s
  | _ => []
  end.

Definition print_refused (values : list json) : bool :=
  existsb (fun v => existsb console_refuses (raw_text v)) values.

(** [print(f"... {v1} ... {v2}")] in a handler: what the model keeps of
    the line is whether the console takes it.  The fixed parts of the
    line are text the console takes. *)
Definition print (values : list json) : M unit :=
  if print_refused values then raise UnicodeEncodeError else ret tt.

(** A value inside an f-string: [None] prints as its name. *)
Definition format (v : option str) : str :=
  match v with
  | Some s => s
  | None => lit "None"
  end.

Definition json_of (v : option str) : json :=
  match v with
  | Some s => JStr s
  | None => JNull
  end.

(** *** Calls of the collaborator *)

(** A method call changes the bot object, not the names of the module. *)
Definition set_bot (g : gateway) (b : Bot) : gateway :=
  {| CHATBOT_READY := CHATBOT_READY g; CHATBOT_ERROR := CHATBOT_ERROR g;
     bot := Some b |}.

(** [bot.answer_question(question)] when [session_id] is [None], and
    [bot.answer_question(question, session_id=sid)] when it is
    [Some sid]. *)
Definition bot_answer_question (question : str) (session_id : option json)
  : M json :=
  fun _ g =>
    match bot g with
    | None =>
        (Raises (AttributeError (lit "NoneType") (lit "answer_question")),
         g, [])
    | Some b =>
        let (r, b') := answer_question b question session_id in
        (r, set_bot g b',
         [Event (Call_answer_question question session_id) (raised r)])
    end.

(** [bot.clear_session_memory(session_id)] *)
Definition bot_clear_session_memory (session_id : N) : M unit :=
  fun _ g =>
    match bot g with
    | None =>
        (Raises (AttributeError (lit "NoneType")
                                (lit "clear_session_memory")),
         g, [])
    | Some b =>
        let (r, b') := clear_session_memory b session_id in
        (r, set_bot g b',
         [Event (Call_clear_session_memory session_id) (raised r)])
    end.

(** *** The handlers *)

Definition error_dict (text : str) : json :=
  JObj [(lit "error", JStr text)].

Definition ask_question (question : json) : M json :=
  ready <- global CHATBOT_READY ;;
  if negb ready then
    err <- global CHATBOT_ERROR ;;
    ret (error_dict (lit "Chatbot not available: " ++ format err))
  else
    blank <- is_blank question ;;
    if blank then ret (error_dict (lit "Question cannot be empty"))
    else
      try_except
        (stripped <- strip_method question ;;
         answer <- bot_answer_question stripped None ;;
         timestamp <- the_request datetime_now ;;
         ret (JObj [(lit "success", JBool true);
                    (lit "question", question);
                    (lit "answer", answer);
                    (lit "timestamp", JStr timestamp)]))
        (fun e =>
           ret (error_dict (lit "Error processing question: " ++ exc_text e))).

Definition health_check : M response :=
  ready <- global CHATBOT_READY ;;
  ret (jsonify (JObj [(lit "status", JStr (lit "healthy"));
                      (lit "message",
                       JStr (lit "Hunter College Chatbot API is running"));
                      (lit "chatbot_ready", JBool ready)])).

Definition missing_message : response :=
  with_status
    (jsonify (error_dict
                (lit "Please provide a 'message' field in your request")))
    400.

Definition chat : M response :=
  data <- the_request get_json ;;
  has_message <- (if negb (truthy data) then ret false
                  else contains (lit "message") data) ;;
  if negb has_message then ret missing_message
  else
    message <- getitem data (lit "message") ;;
    result <- ask_question message ;;
    is_error <- contains (lit "error") result ;;
    if is_error then ret (with_status (jsonify result) 500)
    else
      question <- getitem result (lit "question") ;;
      answer <- getitem result (lit "answer") ;;
      timestamp <- getitem result (lit "timestamp") ;;
      ret (jsonify (JObj [(lit "question", question);
                          (lit "response", answer);
                          (lit "timestamp", timestamp)])).

Definition status : M response :=
  ready <- global CHATBOT_READY ;;
  err <- global CHATBOT_ERROR ;;
  ret (jsonify
         (JObj [(lit "status",
                 JStr (if ready then lit "ready" else lit "error"));
                (lit "chatbot_ready", JBool ready);
                (lit "error", if negb ready then json_of err else JNull)])).

Definition chatbot_status : M response :=
  m <- the_request method ;;
  if http_method_eqb m OPTIONS then
    ret {| status_code := 200; response_body := Text []; headers := [] |}
  else
    ready <- global CHATBOT_READY ;;
    err <- global CHATBOT_ERROR ;;
    ret (jsonify
           (JObj [(lit "status",
                   JStr (if ready then lit "online" else lit "error"));
                  (lit "pythonWorking", JBool ready);
                  (lit "message",
                   JStr (if ready then lit "Hunter AI chatbot is ready"
                         else lit "Chatbot error: " ++ format err));
                  (lit "service", JStr (lit "chatbot"))])).

Definition ask_question_with_session (question session_id : json) : M json :=
  ready <- global CHATBOT_READY ;;
  if negb ready then
    err <- global CHATBOT_ERROR ;;
    ret (error_dict (lit "Chatbot not available: " ++ format err))
  else
    blank <- is_blank question ;;
    if blank then ret (error_dict (lit "Question cannot be empty"))
    else
      try_except
        (stripped <- strip_method question ;;
         answer <- bot_answer_question stripped (Some session_id) ;;
         timestamp <- the_request datetime_now ;;
         ret (JObj [(lit "success", JBool true);
                    (lit "question", question);
                    (lit "answer", answer);
                    (lit "timestamp", JStr timestamp)]))
        (fun e =>
           ret (error_dict (lit "Error processing question: " ++ exc_text e))).

Definition chatbot_ask : M response :=
  m <- the_request method ;;
  if http_method_eqb m OPTIONS then
    ret {| status_code := 200; response_body := Text []; headers := [] |}
  else
    data <- the_request get_json ;;
    has_message <- (if negb (truthy data) then ret false
                    else contains (lit "message") data) ;;
    if negb has_message then ret missing_message
    else
      message <- getitem data (lit "message") ;;
      session_id <- get data (lit "session_id") ;;
      _ <- print [session_id; message] ;;
      result <- ask_question_with_session message session_id ;;
      is_error <- contains (lit "error") result ;;
      if is_error then ret (with_status (jsonify result) 500)
      else
        question <- getitem result (lit "question") ;;
        answer <- getitem result (lit "answer") ;;
        timestamp <- getitem result (lit "timestamp") ;;
        ret (jsonify (JObj [(lit "question", question);
                            (lit "response", answer);
                            (lit "timestamp", timestamp);
                            (lit "session_id", session_id)])).

Definition reset_session_memory (session_id : N) : M response :=
  ready <- global CHATBOT_READY ;;
  if negb ready then
    ret (with_status (jsonify (error_dict (lit "Chatbot not available"))) 500)
  else
    try_except
      (_ <- bot_clear_session_memory session_id ;;
       ret (jsonify
              (JObj [(lit "message",
                      JStr (lit "Memory reset for session "
                            ++ str_of_int session_id))])))
      (fun e =>
         ret (with_status
                (jsonify (error_dict (lit "Failed to reset session memory: "
                                      ++ exc_text e)))
                500)).

(** *** Cross-origin headers *)

(** [r"https:\/\/.*unycompass.*\.vercel\.app"] *)
Definition origin_pattern : regex :=
  Seq (chars (lit "https://"))
      (Seq (Star Dot)
           (Seq (chars (lit "unycompass"))
                (Seq (Star Dot) (chars (lit ".vercel.app"))))).

Definition apply_cors (resp : response) : M response :=
  origin <- the_request Origin ;;
  match origin with
  | Some (c :: o) =>
      if re_match origin_pattern (c :: o) then
        ret (with_header (lit "Access-Control-Allow-Headers")
                         (lit "Content-Type, Authorization")
            (with_header (lit "Access-Control-Allow-Methods")
                         (lit "GET, POST, OPTIONS")
            (with_header (lit "Access-Control-Allow-Credentials")
                         (lit "true")
            (with_header (lit "Access-Control-Allow-Origin") (c :: o)
                         resp))))
      else ret resp
  | _ => ret resp
  end.

(** The arguments of [CORS(app, ...)]. *)
Record cors_options : Type := {
  origins : list str;
  supports_credentials : bool;
  allow_headers : list str;
  cors_methods : list str
}.

Definition CORS_app : cors_options :=
  {| origins := [lit "http://localhost:3000";
                 lit "https://unycompass.vercel.app"];
     supports_credentials := true;
     allow_headers := [lit "Content-Type"; lit "Authorization"];
     cors_methods := [lit "GET"; lit "POST"; lit "OPTIONS"] |}.

(** [s.lower()], exact wherever the result is compared with an ASCII
    string. *)
Definition lower (s : str) : str :=
  map (fun c => if ((65 <=? c) && (c <=? 90))%N then (c + 32)%N
                else if (c =? 8490)%N then 107%N else c) s.

(** The hook [CORS(app, ...)] installs, as flask_cors documents it for
    origins given as plain strings: a response that already names an
    allowed origin is left alone; an [Origin] that equals one of
    [origins], letter case apart, is echoed, with credentials allowed
    when [supports_credentials] is set; a request without [Origin] is
    answered with the first of [origins] (the [always_send] default);
    any other [Origin] gets nothing.  Only the headers that answer
    [Origin] are modelled, not those that answer the
    [Access-Control-Request-*] headers of a preflight request. *)
Definition cors_after_request (options : cors_options) (resp : response)
  : M response :=
  origin <- the_request Origin ;;
  let grant (o : str) :=
    let r := with_header (lit "Access-Control-Allow-Origin") o resp in
    if supports_credentials options
    then with_header (lit "Access-Control-Allow-Credentials") (lit "true") r
    else r in
  match header (lit "Access-Control-Allow-Origin") (headers resp) with
  | Some (_ :: _) => ret resp
  | _ =>
      match origin with
      | Some (c :: o) =>
          if existsb (fun a => str_eqb (lower (c :: o)) (lower a))
                     (origins options)
          then ret (grant (c :: o))
          else ret resp
      | _ =>
          match origins options with
          | a :: _ => ret (grant a)
          | [] => ret resp
          end
      end
  end.

(** *** Flask's dispatch *)

Definition view (r : rule) : M response :=
  match r with
  | rule_health_check => health_check
  | rule_chat => chat
  | rule_status => status
  | rule_chatbot_status => chatbot_status
  | rule_chatbot_ask => chatbot_ask
  | rule_reset_session_memory session_id => reset_session_memory session_id
  end.

Definition http_error (code : N) : response :=
  {| status_code := code; response_body := ErrorPage; headers := [] |}.

(** A path no rule matches is answered 404.  A rule serves the methods
    it declares; Flask itself answers [OPTIONS] for a rule that does
    not declare it, with an empty 200 response and without calling the
    view, and serves [HEAD] with the view of a rule that declares
    [GET]; any other method is answered 405. *)
Definition dispatch_request : M response :=
  matched <- the_request url_rule ;;
  m <- the_request method ;;
  match matched with
  | None => ret (http_error 404)
  | Some r =>
      if existsb (http_method_eqb m) (methods r) then view r
      else
        match m with
        | OPTIONS =>
            ret {| status_code := 200; response_body := Text [];
                   headers := [] |}
        | HEAD =>
            if existsb (http_method_eqb GET) (methods r) then view r
            else ret (http_error 405)
        | _ => ret (http_error 405)
        end
  end.

(** The functions registered with [after_request] run in the reverse
    order of their registration: [apply_cors] first, then the hook of
    [CORS(app, ...)]. *)
Definition process_response (resp : response) : M response :=
  resp <- apply_cors resp ;;
  cors_after_request CORS_app resp.

(** The body of the answer to a [HEAD] request is not sent. *)
Definition finalize (resp : response) : M response :=
  m <- the_request method ;;
  match m with
  | HEAD =>
      ret {| status_code := status_code resp; response_body := Text [];
             headers := headers resp |}
  | _ => ret resp
  end.

(** One request, from routing to the response.  [Raises e] is an
    exception no handler caught. *)
Definition full_dispatch_request : M response :=
  resp <- dispatch_request ;;
  resp <- process_response resp ;;
  finalize resp.

(** The server: the requests of a run, served one after the other with
    the module state the previous one left. *)
Fixpoint serve (requests : list request) (g : gateway)
  : list (outcome response) * gateway * list event :=
  match requests with
  | [] => ([], g, [])
  | req :: rest =>
      let '(r, g1, t1) := full_dispatch_request req g in
      let '(rs, g2, t2) := serve rest g1 in
      (r :: rs, g2, t1 ++ t2)
  end.

(** Code that leaves the readiness flag and the error text as they
    are, and code that leaves the whole module state as it is and does
    not call the collaborator. *)
Definition keeps_flags {A : Type} (m : M A) : Prop :=
  forall req g o g' t,
    m req g = (o, g', t) ->
    CHATBOT_READY g' = CHATBOT_READY g /\ CHATBOT_ERROR g' = CHATBOT_ERROR g.

Definition reads_only {A : Type} (m : M A) : Prop :=
  forall req g, exists o, m req g = (o, g, []).

End Gateway.

Arguments gateway Bot : clear implicits.
Arguments M Bot A : clear implicits.

(** ** The usual console and stub collaborators *)

(** A UTF-8 console with the error handler [strict], as Python opens
    it on a terminal: it refuses the lone surrogates, all of them. *)
#[global] Instance utf8_strict : Console.
Proof.
  refine {| console_refuses := is_surrogate; console_takes_text := _ |}.
  intros c H. exact H.
Defined.

(** A bot that answers every question with the same text and counts the
    calls it served. *)
Definition working_stub {console : Console} (answer : str)
  : Collaborator unit nat.
Proof.
  refine {| UNYCompassDatabase := Returns tt;
            UNYCompassBot := fun _ => Returns 0;
            answer_question :=
              fun served _ _ => (Returns (JStr answer), S served);
            clear_session_memory := fun served _ => (Returns tt, S served);
            module_starts := _ |}.
  intros e [H | [db [_ H]]]; discriminate H.
Defined.

(** A collaborator whose database cannot be constructed. *)
Definition failing_stub {console : Console} (text : str)
           (ok : existsb console_refuses text = false)
  : Collaborator unit nat.
Proof.
  refine {| UNYCompassDatabase := Raises (Exc (lit "RuntimeError") text);
            UNYCompassBot := fun _ => Returns 0;
            answer_question := fun served _ _ => (Returns JNull, S served);
            clear_session_memory := fun served _ => (Returns tt, S served);
            module_starts := _ |}.
  intros e [H | [db [H _]]]; [|discriminate H].
  injection H as <-. split; [reflexivity | exact ok].
Defined.

(** A bot that is constructed, and then raises whenever it is called. *)
Definition raising_stub {console : Console} (text : str)
  : Collaborator unit nat.
Proof.
  refine {| UNYCompassDatabase := Returns tt;
            UNYCompassBot := fun _ => Returns 0;
            answer_question :=
              fun served _ _ =>
                (Raises (Exc (lit "RuntimeError") text), S served);
            clear_session_memory :=
              fun served _ =>
                (Raises (Exc (lit "RuntimeError") text), S served);
            module_starts := _ |}.
  intros e [H | [db [_ H]]]; discriminate H.
Defined.

(** A bot whose calls end in [sys.exit(text)]: [SystemExit] does not
    derive from [Exception]. *)
Definition exiting_stub {console : Console} (text : str)
  : Collaborator unit nat.
Proof.
  refine {| UNYCompassDatabase := Returns tt;
            UNYCompassBot := fun _ => Returns 0;
            answer_question :=
              fun served _ _ =>
                (Raises (BaseException (lit "SystemExit") text false),
                 S served);
            clear_session_memory :=
              fun served _ =>
                (Raises (BaseException (lit "SystemExit") text false),
                 S served);
            module_starts := _ |}.
  intros e [H | [db [_ H]]]; discriminate H.
Defined.

(** [POST] requests with a JSON body, and requests without one. *)
Definition post (r : rule) (data : json) : request :=
  {| method := POST; url_rule := Some r; Origin := None; get_json := data;
     datetime_now := lit "2025-01-01 12:00:00.000000" |}.

Definition bare (m : http_method) (r : rule) (origin : option str) : request :=
  {| method := m; url_rule := Some r; Origin := origin; get_json := JNull;
     datetime_now := lit "2025-01-01 12:00:00.000000" |}.

(** The first character of a text is a whitespace character. *)
Definition starts_with_space (s : str) : bool :=
  match s with
  | c :: _ => isspace c
  | [] => false
  end.

(** The value of a key of a JSON response body. *)
Definition body_field (key : str) (resp : response) : option json :=
  match response_body resp with
  | Json v => field key v
  | _ => None
  end.

(** A body without a ['message'] field: no JSON value at all, or an
    object without the key. *)
Definition message_missing (data : json) : Prop :=
  data = JNull \/
  exists kvs, data = JObj kvs /\ assoc (lit "message") kvs = None.

(** The value of [data.get('session_id')] for the dict of a request. *)
Definition session_of (kvs : list (str * json)) : json :=
  match assoc (lit "session_id") kvs with
  | Some v => v
  | None => JNull
  end.

(** A value whose text holds a lone surrogate: a string can, as
    ["\ud800"] read from JSON does; no other value has one in its
    text. *)
Definition has_lone_surrogate (v : json) : bool :=
  existsb is_surrogate (raw_text v).

(** The call a [POST] request to rule [r] makes when it reaches the bot:
    the stripped message of the body, with no session for [/chat] and
    with [data.get('session_id')] for [/api/chatbot/ask], or the
    identifier of the path for the reset rule. *)
Definition call_of (r : rule) (req : request) (c : call) : Prop :=
  match r with
  | rule_chat =>
      exists kvs m,
        get_json req = JObj kvs /\
        assoc (lit "message") kvs = Some (JStr m) /\
        forallb isspace m = false /\
        c = Call_answer_question (strip m) None
  | rule_chatbot_ask =>
      exists kvs m,
        get_json req = JObj kvs /\
        assoc (lit "message") kvs = Some (JStr m) /\
        forallb isspace m = false /\
        c = Call_answer_question (strip m) (Some (session_of kvs))
  | rule_reset_session_memory n => c = Call_clear_session_memory n
  | _ => False
  end.

(** An element of a JSON array that is the string ['message']. *)
Definition is_message (v : json) : bool :=
  match v with
  | JStr s => str_eqb s (lit "message")
  | _ => false
  end.

(** A text without a newline character. *)
Definition no_newline (s : str) : Prop := Forall (fun c => c <> 10%N) s.

(** The origins of the form [https://] ... [unycompass] ...
    [.vercel.app] ..., the first two gaps without a newline. *)
Definition passes_origin_check (o : str) : Prop :=
  exists a b c,
    o = lit "https://" ++ a ++ lit "unycompass" ++ b ++ lit ".vercel.app" ++ c
    /\ no_newline a /\ no_newline b.

(** * Properties *)

(** ** Text *)

Lemma str_eqb_eq (a b : str) : str_eqb a b = true <-> a = b.
Proof.
  revert b; induction a as [|x a IH]; intros [|y b]; simpl;
    try (split; [discriminate | discriminate]); try tauto.
  rewrite andb_true_iff, N.eqb_eq, IH.
  split; [intros [-> ->]; reflexivity | intros E; injection E; auto].
Qed.

Lemma str_eqb_refl (a : str) : str_eqb a a = true.
Proof. apply str_eqb_eq; reflexivity. Qed.

Lemma lstrip_split (s : str) :
  exists l, s = l ++ lstrip s /\ forallb isspace l = true.
Proof.
  induction s as [|c s [l [E Hl]]]; simpl.
  - exists []; auto.
  - destruct (isspace c) eqn:Hc.
    + exists (c :: l); simpl; rewrite Hc, Hl; split; [f_equal; exact E | reflexivity].
    + exists []; auto.
Qed.

Lemma lstrip_no_leading_space (s : str) : starts_with_space (lstrip s) = false.
Proof.
  induction s as [|c s IH]; simpl; [reflexivity|].
  destruct (isspace c) eqn:Hc; [exact IH | simpl; exact Hc].
Qed.

Lemma lstrip_nil_iff (s : str) : lstrip s = [] <-> forallb isspace s = true.
Proof.
  induction s as [|c s IH]; simpl; [tauto|].
  destruct (isspace c); simpl; [exact IH | split; discriminate].
Qed.

Lemma forallb_rev {A : Type} (f : A -> bool) (l : list A) :
  forallb f (rev l) = forallb f l.
Proof.
  induction l as [|x l IH]; simpl; [reflexivity|].
  rewrite forallb_app, IH; simpl. rewrite andb_true_r, andb_comm; reflexivity.
Qed.

(** Stripping on the left keeps the last character when it is not a
    whitespace character. *)
Lemma lstrip_keeps_last (s : str) (c : codepoint) :
  isspace c = false -> exists y, lstrip (s ++ [c]) = y ++ [c].
Proof.
  intros Hc. induction s as [|x s [y IH]]; simpl.
  - rewrite Hc. exists []; reflexivity.
  - destruct (isspace x).
    + exists y; exact IH.
    + exists (x :: s); reflexivity.
Qed.

Lemma rstrip_split (s : str) :
  exists r, s = rstrip s ++ r /\ forallb isspace r = true.
Proof.
  unfold rstrip. destruct (lstrip_split (rev s)) as [l [E Hl]].
  exists (rev l). rewrite forallb_rev. split; [|exact Hl].
  rewrite <- rev_app_distr, <- E, rev_involutive; reflexivity.
Qed.

Lemma rstrip_no_trailing_space (s : str) :
  starts_with_space (rev (rstrip s)) = false.
Proof.
  unfold rstrip. rewrite rev_involutive. apply lstrip_no_leading_space.
Qed.

Lemma rstrip_keeps_first (c : codepoint) (s : str) :
  isspace c = false -> exists y, rstrip (c :: s) = c :: y.
Proof.
  intros Hc. unfold rstrip. simpl rev at 2.
  destruct (lstrip_keeps_last (rev s) c Hc) as [y ->].
  exists (rev y). rewrite rev_app_distr; reflexivity.
Qed.

(** What [strip] returns: the text without the whitespace characters at
    its two ends. *)
Lemma strip_spec (s : str) :
  exists l r,
    s = l ++ strip s ++ r /\
    forallb isspace l = true /\ forallb isspace r = true /\
    starts_with_space (strip s) = false /\
    starts_with_space (rev (strip s)) = false.
Proof.
  unfold strip.
  destruct (lstrip_split s) as [l [El Hl]].
  destruct (rstrip_split (lstrip s)) as [r [Er Hr]].
  exists l, r. repeat split; auto.
  - rewrite <- Er. exact El.
  - pose proof (lstrip_no_leading_space s) as H.
    destruct (lstrip s) as [|c t] eqn:E; [reflexivity|].
    simpl in H. destruct (rstrip_keeps_first c t H) as [y ->]. exact H.
  - apply rstrip_no_trailing_space.
Qed.

(** [strip] returns the empty text exactly on the texts made of
    whitespace characters only, the empty text among them. *)
Lemma strip_nil_iff (s : str) : strip s = [] <-> forallb isspace s = true.
Proof.
  unfold strip, rstrip.
  destruct (lstrip_split s) as [l [El Hl]].
  split.
  - intros H. apply (f_equal (@rev codepoint)) in H.
    rewrite rev_involutive in H. simpl in H.
    apply lstrip_nil_iff in H. rewrite forallb_rev in H.
    rewrite El, forallb_app, Hl, H; reflexivity.
  - intros H. apply lstrip_nil_iff in H. rewrite H. reflexivity.
Qed.

Lemma strip_truthy (s : str) :
  forallb isspace s = false -> truthy (JStr (strip s)) = true.
Proof.
  intros H. simpl. destruct (strip s) eqn:E; [|reflexivity].
  apply strip_nil_iff in E. congruence.
Qed.

Lemma strip_falsy (s : str) :
  forallb isspace s = true -> truthy (JStr (strip s)) = false.
Proof.
  intros H. apply strip_nil_iff in H. rewrite H. reflexivity.
Qed.

(** ** Regular expressions *)

Lemma nullable_spec (r : regex) : nullable r = true <-> matches r [].
Proof.
  induction r; simpl.
  - split; [discriminate | intros H; inversion H].
  - split; [constructor | reflexivity].
  - split; [discriminate | intros H; inversion H].
  - split; [discriminate | intros H; inversion H].
  - rewrite andb_true_iff, IHr1, IHr2. split.
    + intros [H1 H2]. change (@nil codepoint) with (@nil codepoint ++ []).
      constructor; assumption.
    + intros H. inversion H as [| | |? ? s1 s2 H1 H2 E| | | |]; subst.
      destruct s1; [|discriminate]. destruct s2; [|discriminate]. auto.
  - rewrite orb_true_iff, IHr1, IHr2. split.
    + intros [H|H]; [apply m_alt_l | apply m_alt_r]; exact H.
    + intros H; inversion H; subst; auto.
  - split; [constructor | reflexivity].
Qed.

Lemma matches_seq_inv (r1 r2 : regex) (s : str) :
  matches (Seq r1 r2) s <->
  exists s1 s2, s = s1 ++ s2 /\ matches r1 s1 /\ matches r2 s2.
Proof.
  split.
  - intros H; inversion H; subst; eauto.
  - intros [s1 [s2 [-> [H1 H2]]]]; constructor; assumption.
Qed.

Lemma matches_star_cons_inv (r : regex) (c : codepoint) (s : str) :
  matches (Star r) (c :: s) ->
  exists s1 s2, s = s1 ++ s2 /\ matches r (c :: s1) /\ matches (Star r) s2.
Proof.
  intros H. remember (Star r) as R eqn:ER. remember (c :: s) as S eqn:ES.
  induction H as [| | | | | | |r' s1 s2 H1 _ H2 IH2]; try discriminate.
  injection ER as ->.
  destruct s1 as [|x s1]; simpl in ES.
  - apply IH2; auto.
  - injection ES as -> <-. eauto.
Qed.

Lemma deriv_spec (c : codepoint) (r : regex) (s : str) :
  matches (deriv c r) s <-> matches r (c :: s).
Proof.
  revert s; induction r; intros s; simpl.
  - split; intros H; inversion H.
  - split; intros H; inversion H.
  - destruct (N.eqb_spec c c0) as [->|Hne]; split; intros H; inversion H; subst;
      try constructor; congruence.
  - destruct (N.eqb_spec c 10) as [->|Hne]; split; intros H; inversion H; subst;
      try (constructor; assumption); congruence.
  - split.
    + intros H.
      assert (matches (Seq (deriv c r1) r2) s \/
              (nullable r1 = true /\ matches (deriv c r2) s)) as [H'|[Hn H']].
      { destruct (nullable r1); [|auto]. inversion H; subst; auto. }
      * apply matches_seq_inv in H' as [s1 [s2 [-> [H1 H2]]]].
        apply IHr1 in H1. change (c :: s1 ++ s2) with ((c :: s1) ++ s2).
        constructor; assumption.
      * apply nullable_spec in Hn. apply IHr2 in H'.
        change (c :: s) with ([] ++ c :: s). constructor; assumption.
    + intros H. apply matches_seq_inv in H as [s1 [s2 [E [H1 H2]]]].
      destruct s1 as [|x s1]; simpl in E.
      * subst s2. apply nullable_spec in H1. rewrite H1.
        apply m_alt_r, IHr2, H2.
      * injection E as <- ->. apply IHr1 in H1.
        destruct (nullable r1); [apply m_alt_l|]; constructor; assumption.
  - split.
    + intros H; inversion H; subst;
        [apply m_alt_l, IHr1 | apply m_alt_r, IHr2]; assumption.
    + intros H; inversion H; subst;
        [apply m_alt_l, IHr1 | apply m_alt_r, IHr2]; assumption.
  - split.
    + intros H. apply matches_seq_inv in H as [s1 [s2 [-> [H1 H2]]]].
      apply IHr in H1. change (c :: s1 ++ s2) with ((c :: s1) ++ s2).
      constructor; assumption.
    + intros H. apply matches_star_cons_inv in H as [s1 [s2 [-> [H1 H2]]]].
      constructor; [apply IHr|]; assumption.
Qed.

(** [re.match] succeeds exactly when the pattern matches a prefix of
    the text. *)
Lemma re_match_spec (r : regex) (s : str) :
  re_match r s = true <-> exists p t, s = p ++ t /\ matches r p.
Proof.
  revert r; induction s as [|c s IH]; intros r; simpl.
  - rewrite orb_false_r, nullable_spec. split.
    + intros H; exists [], []; auto.
    + intros [p [t [E H]]]. destruct p; [exact H | discriminate].
  - rewrite orb_true_iff, nullable_spec, IH. split.
    + intros [H|[p [t [-> H]]]].
      * exists [], (c :: s); auto.
      * exists (c :: p), t. split; [reflexivity | apply deriv_spec, H].
    + intros [[|x p] [t [E H]]]; [left; exact H|].
      injection E as <- ->. right. exists p, t.
      split; [reflexivity | apply deriv_spec, H].
Qed.

Lemma matches_chars (l s : str) : matches (chars l) s <-> s = l.
Proof.
  revert s; induction l as [|c l IH]; intros s; simpl.
  - split; [intros H; inversion H; reflexivity | intros ->; constructor].
  - rewrite matches_seq_inv. split.
    + intros [s1 [s2 [-> [H1 H2]]]]. inversion H1; subst.
      apply IH in H2. subst; reflexivity.
    + intros ->. exists [c], l. repeat split; [constructor | apply IH; reflexivity].
Qed.

Lemma matches_star_dot (s : str) : matches (Star Dot) s <-> no_newline s.
Proof.
  unfold no_newline. split.
  - intros H. remember (Star Dot) as R eqn:ER.
    induction H as [| | | | | | |r s1 s2 H1 _ H2 IH2]; try discriminate.
    + constructor.
    + injection ER as ->. inversion H1; subst. constructor; auto.
  - induction 1 as [|c s Hc _ IH]; [constructor|].
    change (c :: s) with ([c] ++ s). constructor; [constructor; exact Hc | exact IH].
Qed.

(** The texts [origin_pattern] matches in full. *)
Lemma matches_origin_pattern (p : str) :
  matches origin_pattern p <->
  exists a b,
    p = lit "https://" ++ a ++ lit "unycompass" ++ b ++ lit ".vercel.app" /\
    no_newline a /\ no_newline b.
Proof.
  unfold origin_pattern. split.
  - intros H.
    apply matches_seq_inv in H as [s1 [t1 [-> [H1 H]]]].
    apply matches_seq_inv in H as [a [t2 [-> [Ha H]]]].
    apply matches_seq_inv in H as [s3 [t3 [-> [H3 H]]]].
    apply matches_seq_inv in H as [b [s5 [-> [Hb H5]]]].
    apply matches_chars in H1, H3, H5. apply matches_star_dot in Ha, Hb.
    subst. exists a, b. auto.
  - intros [a [b [-> [Ha Hb]]]].
    repeat (constructor; [first [apply matches_chars; reflexivity
                                | apply matches_star_dot; assumption]|]).
    apply matches_chars; reflexivity.
Qed.

(** The origins [apply_cors] lets through: whatever starts with
    [https://], goes on with [unycompass] somewhere and [.vercel.app]
    somewhere after it, and ends in any way at all. *)
Lemma origin_pattern_spec (o : str) :
  re_match origin_pattern o = true <->
  exists a b c,
    o = lit "https://" ++ a ++ lit "unycompass" ++ b ++ lit ".vercel.app" ++ c /\
    no_newline a /\ no_newline b.
Proof.
  rewrite re_match_spec. split.
  - intros [p [t [-> H]]]. apply matches_origin_pattern in H as [a [b [-> [Ha Hb]]]].
    exists a, b, t. repeat split; auto.
    rewrite <- !app_assoc. reflexivity.
  - intros [a [b [c [-> [Ha Hb]]]]].
    exists (lit "https://" ++ a ++ lit "unycompass" ++ b ++ lit ".vercel.app"), c.
    split; [rewrite <- !app_assoc; reflexivity|].
    apply matches_origin_pattern. eauto.
Qed.

(** ** The handlers *)

Section Properties.

Context {Database Bot : Type} {console : Console}.
Context {hunter_ai : Collaborator Database Bot}.

Implicit Types (req : request) (g : gateway Bot).

Local Arguments lit : simpl never.
Local Arguments assoc : simpl never.
Local Arguments truthy : simpl never.
Local Arguments strip : simpl never.
Local Arguments re_match : simpl never.
Local Arguments str_of_int : simpl never.

(** *** The after-request hooks touch the headers only *)

Lemma apply_cors_keeps (resp : response) req g :
  exists resp',
    apply_cors resp req g = (Returns resp', g, []) /\
    status_code resp' = status_code resp /\
    response_body resp' = response_body resp.
Proof.
  unfold apply_cors, bind, the_request.
  destruct (Origin req) as [[|c o]|]; try destruct (re_match _ _);
    eexists; (split; [reflexivity | split; reflexivity]).
Qed.

Lemma cors_after_request_keeps (options : cors_options) (resp : response) req g :
  exists resp',
    cors_after_request options resp req g = (Returns resp', g, []) /\
    status_code resp' = status_code resp /\
    response_body resp' = response_body resp.
Proof.
  unfold cors_after_request, bind, the_request.
  destruct (header _ _) as [[|? ?]|];
    destruct (Origin req) as [[|? ?]|]; try destruct (existsb _ _);
    try destruct (origins options); destruct (supports_credentials options);
    eexists; (split; [reflexivity | split; reflexivity]).
Qed.

Lemma process_response_keeps (resp : response) req g :
  exists resp',
    process_response resp req g = (Returns resp', g, []) /\
    status_code resp' = status_code resp /\
    response_body resp' = response_body resp.
Proof.
  destruct (apply_cors_keeps resp req g) as [r1 [E1 [S1 B1]]].
  destruct (cors_after_request_keeps CORS_app r1 req g) as [r2 [E2 [S2 B2]]].
  exists r2. unfold process_response, bind. rewrite E1, E2.
  repeat split; congruence.
Qed.

Lemma finalize_keeps (resp : response) req g :
  exists resp',
    finalize resp req g = (Returns resp', g, []) /\
    status_code resp' = status_code resp /\
    headers resp' = headers resp /\
    (method req <> HEAD -> response_body resp' = response_body resp).
Proof.
  unfold finalize, bind, the_request.
  destruct (method req); eexists;
    (split; [reflexivity | repeat split; congruence]).
Qed.

(** A response of the handlers reaches the client with its status, and,
    unless the request is a [HEAD] request, with its body. *)
Lemma full_dispatch_request_returns req g (resp : response) g' t :
  dispatch_request req g = (Returns resp, g', t) ->
  exists resp',
    full_dispatch_request req g = (Returns resp', g', t) /\
    status_code resp' = status_code resp /\
    (method req <> HEAD -> response_body resp' = response_body resp).
Proof.
  intros H.
  destruct (process_response_keeps resp req g') as [r1 [E1 [S1 B1]]].
  destruct (finalize_keeps r1 req g') as [r2 [E2 [S2 [_ B2]]]].
  exists r2. unfold full_dispatch_request, bind. rewrite H, E1, E2.
  rewrite !app_nil_r. repeat split; try congruence.
  intros Hm. rewrite (B2 Hm). exact B1.
Qed.

Lemma full_dispatch_request_raises req g (e : exception) g' t :
  dispatch_request req g = (Raises e, g', t) ->
  full_dispatch_request req g = (Raises e, g', t).
Proof.
  intros H. unfold full_dispatch_request, bind. rewrite H. reflexivity.
Qed.

(** *** The two question helpers *)

Lemma is_blank_text (m : str) req g :
  is_blank (JStr m) req g = (Returns (forallb isspace m), g, []).
Proof.
  unfold is_blank, bind, strip_method, ret.
  destruct (forallb isspace m) eqn:E.
  - destruct (truthy (JStr m)); cbn;
      [rewrite strip_falsy by exact E|]; reflexivity.
  - destruct (truthy (JStr m)) eqn:T; cbn;
      [rewrite strip_truthy by exact E; reflexivity|].
    destruct m; [discriminate E | discriminate T].
Qed.

Lemma is_blank_other (q : json) req g :
  (forall m, q <> JStr m) ->
  exists o, is_blank q req g = (o, g, []) /\ o <> Returns false.
Proof.
  intros H. unfold is_blank, bind, strip_method, ret, raise.
  destruct q; try (exfalso; eapply H; reflexivity);
    destruct (truthy _); cbn; eexists; (split; [reflexivity | discriminate]).
Qed.

Ltac ask_unfold :=
  unfold ask_question, ask_question_with_session, bind, global.

Lemma ask_question_unavailable (q : json) req g :
  CHATBOT_READY g = false ->
  ask_question q req g =
  (Returns (error_dict (lit "Chatbot not available: "
                        ++ format (CHATBOT_ERROR g))), g, []).
Proof. intros R. ask_unfold. rewrite R. reflexivity. Qed.

Lemma ask_question_with_session_unavailable (q sid : json) req g :
  CHATBOT_READY g = false ->
  ask_question_with_session q sid req g =
  (Returns (error_dict (lit "Chatbot not available: "
                        ++ format (CHATBOT_ERROR g))), g, []).
Proof. intros R. ask_unfold. rewrite R. reflexivity. Qed.

Lemma ask_question_blank (m : str) req g :
  CHATBOT_READY g = true -> forallb isspace m = true ->
  ask_question (JStr m) req g =
  (Returns (error_dict (lit "Question cannot be empty")), g, []).
Proof.
  intros R H. ask_unfold. rewrite R. cbn [negb].
  rewrite is_blank_text, H. reflexivity.
Qed.

Lemma ask_question_with_session_blank (m : str) (sid : json) req g :
  CHATBOT_READY g = true -> forallb isspace m = true ->
  ask_question_with_session (JStr m) sid req g =
  (Returns (error_dict (lit "Question cannot be empty")), g, []).
Proof.
  intros R H. ask_unfold. rewrite R. cbn [negb].
  rewrite is_blank_text, H. reflexivity.
Qed.

Ltac ask_call R H B :=
  ask_unfold; rewrite R; cbn [negb]; rewrite is_blank_text, H;
  unfold try_except, bind, strip_method, ret, bot_answer_question,
    the_request;
  rewrite B.

Lemma ask_question_answered (m : str) (b : Bot) req g :
  CHATBOT_READY g = true -> forallb isspace m = false -> bot g = Some b ->
  ask_question (JStr m) req g =
  match answer_question b (strip m) None with
  | (Returns a, b') =>
      (Returns (JObj [(lit "success", JBool true);
                      (lit "question", JStr m);
                      (lit "answer", a);
                      (lit "timestamp", JStr (datetime_now req))]),
       set_bot g b',
       [Event (Call_answer_question (strip m) None) None])
  | (Raises e, b') =>
      (if derives_from_Exception e
       then Returns (error_dict (lit "Error processing question: "
                                 ++ exc_text e))
       else Raises e,
       set_bot g b',
       [Event (Call_answer_question (strip m) None) (Some e)])
  end.
Proof.
  intros R H B. ask_call R H B.
  destruct (answer_question b (strip m) None) as [[a|e] b'];
    [|cbn [raised]; destruct (derives_from_Exception e)]; reflexivity.
Qed.

Lemma ask_question_with_session_answered (m : str) (sid : json) (b : Bot)
      req g :
  CHATBOT_READY g = true -> forallb isspace m = false -> bot g = Some b ->
  ask_question_with_session (JStr m) sid req g =
  match answer_question b (strip m) (Some sid) with
  | (Returns a, b') =>
      (Returns (JObj [(lit "success", JBool true);
                      (lit "question", JStr m);
                      (lit "answer", a);
                      (lit "timestamp", JStr (datetime_now req))]),
       set_bot g b',
       [Event (Call_answer_question (strip m) (Some sid)) None])
  | (Raises e, b') =>
      (if derives_from_Exception e
       then Returns (error_dict (lit "Error processing question: "
                                 ++ exc_text e))
       else Raises e,
       set_bot g b',
       [Event (Call_answer_question (strip m) (Some sid)) (Some e)])
  end.
Proof.
  intros R H B. ask_call R H B.
  destruct (answer_question b (strip m) (Some sid)) as [[a|e] b'];
    [|cbn [raised]; destruct (derives_from_Exception e)]; reflexivity.
Qed.

(** Unless the bot is called, a helper changes nothing, and what it
    returns is an error dictionary. *)
Ltac ask_quiet q req g :=
  destruct (CHATBOT_READY g) eqn:R;
  [| left; eexists; split;
     [first [apply ask_question_unavailable
            | apply ask_question_with_session_unavailable]; exact R
     | intros d E; injection E as <-; eexists; reflexivity]];
  assert (Q : (exists m, q = JStr m) \/ forall m, q <> JStr m)
    by (destruct q; try (right; discriminate); left; eexists; reflexivity);
  destruct Q as [[m ->]|Q];
  [ destruct (forallb isspace m) eqn:H;
    [ left; eexists; split;
      [first [apply ask_question_blank
             | apply ask_question_with_session_blank]; assumption
      | intros d E; injection E as <-; eexists; reflexivity]
    | destruct (bot g) as [b|] eqn:B;
      [ right; exists m, b; auto
      | left; ask_call R H B; eexists; split;
        [reflexivity | intros d E; injection E as <-; eexists; reflexivity] ] ]
  | left; destruct (is_blank_other q req g Q) as [o [E Ho]];
    ask_unfold; rewrite R; cbn [negb]; rewrite E;
    destruct o as [[|]|e];
    [ eexists; split;
      [reflexivity | intros d E'; injection E' as <-; eexists; reflexivity]
    | congruence
    | eexists; split; [reflexivity | discriminate] ] ].

Lemma ask_question_cases (q : json) req g :
  (exists o, ask_question q req g = (o, g, []) /\
             forall d, o = Returns d -> exists text, d = error_dict text)
  \/ (exists m b, q = JStr m /\ forallb isspace m = false /\
                  CHATBOT_READY g = true /\ bot g = Some b).
Proof. ask_quiet q req g. Qed.

Lemma ask_question_with_session_cases (q sid : json) req g :
  (exists o, ask_question_with_session q sid req g = (o, g, []) /\
             forall d, o = Returns d -> exists text, d = error_dict text)
  \/ (exists m b, q = JStr m /\ forallb isspace m = false /\
                  CHATBOT_READY g = true /\ bot g = Some b).
Proof. ask_quiet q req g. Qed.


(** *** The views *)

Lemma assoc_truthy (k : str) (kvs : list (str * json)) (v : json) :
  assoc k kvs = Some v -> truthy (JObj kvs) = true.
Proof. destruct kvs; [discriminate | reflexivity]. Qed.

Lemma not_options req :
  method req <> OPTIONS -> http_method_eqb (method req) OPTIONS = false.
Proof. destruct (method req); intros H; first [reflexivity | congruence]. Qed.

Ltac enter_ask D A :=
  unfold chat, chatbot_ask, bind, the_request;
  try match goal with
      | H : method _ <> OPTIONS |- _ => rewrite (not_options _ H)
      end;
  rewrite D, (assoc_truthy _ _ _ A);
  unfold contains, getitem, get, ret; cbn [negb]; rewrite A; cbn [negb].

Lemma chat_missing req g :
  message_missing (get_json req) ->
  chat req g = (Returns missing_message, g, []).
Proof.
  intros [E | [kvs [E A]]]; unfold chat, bind, the_request; rewrite E.
  - reflexivity.
  - destruct kvs; [reflexivity|].
    unfold truthy, contains, ret; cbn [negb]. rewrite A. reflexivity.
Qed.

Lemma chat_answered (kvs : list (str * json)) (m : str) (b : Bot) req g :
  get_json req = JObj kvs -> assoc (lit "message") kvs = Some (JStr m) ->
  CHATBOT_READY g = true -> forallb isspace m = false -> bot g = Some b ->
  chat req g =
  match answer_question b (strip m) None with
  | (Returns a, b') =>
      (Returns (jsonify (JObj [(lit "question", JStr m);
                               (lit "response", a);
                               (lit "timestamp", JStr (datetime_now req))])),
       set_bot g b',
       [Event (Call_answer_question (strip m) None) None])
  | (Raises e, b') =>
      (if derives_from_Exception e
       then Returns (with_status
                       (jsonify (error_dict (lit "Error processing question: "
                                             ++ exc_text e))) 500)
       else Raises e,
       set_bot g b',
       [Event (Call_answer_question (strip m) None) (Some e)])
  end.
Proof.
  intros D A R H B. enter_ask D A.
  rewrite (ask_question_answered m b req g R H B).
  destruct (answer_question b (strip m) None) as [[a|e] b'];
    [|destruct (derives_from_Exception e)]; reflexivity.
Qed.

Ltac quiet :=
  left; eexists; split;
  [ reflexivity
  | first [ discriminate
          | let E := fresh in
            intros ? E; injection E as <-;
            split; [auto | eexists; reflexivity] ] ].

Lemma chat_cases req g :
  (exists o, chat req g = (o, g, []) /\
             forall resp, o = Returns resp ->
               (status_code resp = 400%N \/ status_code resp = 500%N) /\
               exists text, response_body resp = Json (error_dict text))
  \/ (exists kvs m b,
        get_json req = JObj kvs /\
        assoc (lit "message") kvs = Some (JStr m) /\
        forallb isspace m = false /\
        CHATBOT_READY g = true /\ bot g = Some b).
Proof.
  destruct (get_json req) as [|[|]|n|f|s|l|kvs] eqn:D.
  1-6: unfold chat, bind, the_request; rewrite D;
       unfold truthy, contains, getitem, ret, raise; cbn [negb].
  - quiet.
  - quiet.
  - quiet.
  - destruct (Z.eqb n 0); quiet.
  - destruct f; quiet.
  - destruct s; [quiet|]. destruct (str_contains _ _); quiet.
  - unfold chat, bind, the_request; rewrite D;
      unfold truthy, contains, getitem, ret, raise; cbn [negb].
    destruct l; [quiet|]. destruct (existsb _ _); quiet.
  - destruct (assoc (lit "message") kvs) as [v|] eqn:A.
    + destruct (ask_question_cases v req g) as [[o [E Ho]]|[m [b [-> P]]]].
      * enter_ask D A. rewrite E.
        destruct o as [d|e]; [destruct (Ho d eq_refl) as [text ->]|]; quiet.
      * right. exists kvs, m, b. tauto.
    + left. exists (Returns missing_message). split.
      * apply chat_missing. right. eauto.
      * intros ? E; injection E as <-. split; [auto | eexists; reflexivity].
Qed.


(** The log line of [chatbot_ask]. *)
Lemma print_taken (values : list json) req g :
  print_refused values = false -> print values req g = (Returns tt, g, []).
Proof. intros P. unfold print. rewrite P. reflexivity. Qed.

Lemma print_not_taken (values : list json) req g :
  print_refused values = true ->
  print values req g = (Raises UnicodeEncodeError, g, []).
Proof. intros P. unfold print. rewrite P. reflexivity. Qed.

Lemma chatbot_ask_options req g :
  method req = OPTIONS ->
  chatbot_ask req g =
  (Returns {| status_code := 200; response_body := Text []; headers := [] |},
   g, []).
Proof.
  intros E. unfold chatbot_ask, bind, the_request. rewrite E. reflexivity.
Qed.

Lemma chatbot_ask_missing req g :
  method req <> OPTIONS -> message_missing (get_json req) ->
  chatbot_ask req g = (Returns missing_message, g, []).
Proof.
  intros Hm [E | [kvs [E A]]]; unfold chatbot_ask, bind, the_request;
    rewrite (not_options _ Hm), E; [reflexivity|].
  destruct kvs; [reflexivity|].
  unfold truthy, contains, ret; cbn [negb]. rewrite A. reflexivity.
Qed.

Lemma chatbot_ask_answered (kvs : list (str * json)) (m : str) (b : Bot)
      req g :
  method req <> OPTIONS ->
  get_json req = JObj kvs -> assoc (lit "message") kvs = Some (JStr m) ->
  print_refused [session_of kvs; JStr m] = false ->
  CHATBOT_READY g = true -> forallb isspace m = false -> bot g = Some b ->
  chatbot_ask req g =
  match answer_question b (strip m) (Some (session_of kvs)) with
  | (Returns a, b') =>
      (Returns (jsonify (JObj [(lit "question", JStr m);
                               (lit "response", a);
                               (lit "timestamp", JStr (datetime_now req));
                               (lit "session_id", session_of kvs)])),
       set_bot g b',
       [Event (Call_answer_question (strip m) (Some (session_of kvs))) None])
  | (Raises e, b') =>
      (if derives_from_Exception e
       then Returns (with_status
                       (jsonify (error_dict (lit "Error processing question: "
                                             ++ exc_text e))) 500)
       else Raises e,
       set_bot g b',
       [Event (Call_answer_question (strip m) (Some (session_of kvs)))
              (Some e)])
  end.
Proof.
  intros Hm D A P R H B. enter_ask D A.
  fold (session_of kvs). rewrite (print_taken _ req g P). cbn [negb].
  rewrite (ask_question_with_session_answered m (session_of kvs) b req g R H B).
  destruct (answer_question b (strip m) (Some (session_of kvs)))
    as [[a|e] b']; [|destruct (derives_from_Exception e)]; reflexivity.
Qed.

Lemma chatbot_ask_cases req g :
  method req <> OPTIONS ->
  (exists o, chatbot_ask req g = (o, g, []) /\
             forall resp, o = Returns resp ->
               (status_code resp = 400%N \/ status_code resp = 500%N) /\
               exists text, response_body resp = Json (error_dict text))
  \/ (exists kvs m b,
        get_json req = JObj kvs /\
        assoc (lit "message") kvs = Some (JStr m) /\
        print_refused [session_of kvs; JStr m] = false /\
        forallb isspace m = false /\
        CHATBOT_READY g = true /\ bot g = Some b).
Proof.
  intros Hm. pose proof (not_options _ Hm) as Hopt.
  destruct (get_json req) as [|[|]|n|f|s|l|kvs] eqn:D.
  1-7: unfold chatbot_ask, bind, the_request; rewrite Hopt, D;
       unfold truthy, contains, getitem, get, ret, raise; cbn [negb].
  - quiet.
  - quiet.
  - quiet.
  - destruct (Z.eqb n 0); quiet.
  - destruct f; quiet.
  - destruct s; [quiet|]. destruct (str_contains _ _); quiet.
  - destruct l; [quiet|]. destruct (existsb _ _); quiet.
  - destruct (assoc (lit "message") kvs) as [v|] eqn:A.
    + destruct (print_refused [session_of kvs; v]) eqn:P.
      { enter_ask D A. fold (session_of kvs).
        rewrite (print_not_taken _ req g P). quiet. }
      destruct (ask_question_with_session_cases v (session_of kvs) req g)
        as [[o [E Ho]]|[m [b [-> Q]]]].
      * enter_ask D A. fold (session_of kvs).
        rewrite (print_taken _ req g P). cbn [negb]. rewrite E.
        destruct o as [d|e]; [destruct (Ho d eq_refl) as [text ->]|]; quiet.
      * right. exists kvs, m, b. tauto.
    + left. exists (Returns missing_message). split.
      * apply chatbot_ask_missing; [exact Hm | right; eauto].
      * intros ? E; injection E as <-. split; [auto | eexists; reflexivity].
Qed.

Lemma reset_session_memory_unavailable (n : N) req g :
  CHATBOT_READY g = false ->
  reset_session_memory n req g =
  (Returns (with_status (jsonify (error_dict (lit "Chatbot not available")))
                        500), g, []).
Proof.
  intros R. unfold reset_session_memory, bind, global. rewrite R. reflexivity.
Qed.

Lemma reset_session_memory_called (n : N) (b : Bot) req g :
  CHATBOT_READY g = true -> bot g = Some b ->
  reset_session_memory n req g =
  match clear_session_memory b n with
  | (Returns _, b') =>
      (Returns (jsonify (JObj [(lit "message",
                                JStr (lit "Memory reset for session "
                                      ++ str_of_int n))])),
       set_bot g b', [Event (Call_clear_session_memory n) None])
  | (Raises e, b') =>
      (if derives_from_Exception e
       then Returns (with_status
                       (jsonify (error_dict
                                   (lit "Failed to reset session memory: "
                                    ++ exc_text e))) 500)
       else Raises e,
       set_bot g b', [Event (Call_clear_session_memory n) (Some e)])
  end.
Proof.
  intros R B.
  unfold reset_session_memory, bind, global, try_except,
    bot_clear_session_memory.
  rewrite R. cbn [negb]. rewrite B.
  destruct (clear_session_memory b n) as [[u|e] b'];
    [|cbn [raised]; destruct (derives_from_Exception e)]; reflexivity.
Qed.

Lemma reset_session_memory_cases (n : N) req g :
  (exists resp, reset_session_memory n req g = (Returns resp, g, []) /\
                status_code resp = 500%N /\
                exists text, response_body resp = Json (error_dict text))
  \/ (exists b, CHATBOT_READY g = true /\ bot g = Some b).
Proof.
  destruct (CHATBOT_READY g) eqn:R.
  - destruct (bot g) as [b|] eqn:B; [right; eauto|].
    left. unfold reset_session_memory, bind, global, try_except,
      bot_clear_session_memory.
    rewrite R. cbn [negb]. rewrite B.
    eexists; split; [reflexivity | split; [reflexivity | eexists; reflexivity]].
  - left. rewrite (reset_session_memory_unavailable n req g R).
    eexists; split; [reflexivity | split; [reflexivity | eexists; reflexivity]].
Qed.

(** *** Dispatch *)

Lemma dispatch_request_view (r : rule) req g :
  url_rule req = Some r ->
  existsb (http_method_eqb (method req)) (methods r) = true ->
  dispatch_request req g = view r req g.
Proof.
  intros U H. unfold dispatch_request, bind, the_request. rewrite U, H.
  destruct (view r req g) as [[o g'] t]. reflexivity.
Qed.


(** *** What a piece of handler code may do to the module state *)

Lemma keeps_flags_ret {A : Type} (a : A) : keeps_flags (Bot := Bot) (ret a).
Proof. intros req g o g' t E; injection E as <- <- <-; auto. Qed.

Lemma keeps_flags_raise {A : Type} (e : exception) :
  keeps_flags (Bot := Bot) (raise (A := A) e).
Proof. intros req g o g' t E; injection E as <- <- <-; auto. Qed.

Lemma keeps_flags_global {A : Type} (f : gateway Bot -> A) :
  keeps_flags (global f).
Proof. intros req g o g' t E; injection E as <- <- <-; auto. Qed.

Lemma keeps_flags_the_request {A : Type} (f : request -> A) :
  keeps_flags (Bot := Bot) (the_request f).
Proof. intros req g o g' t E; injection E as <- <- <-; auto. Qed.

Lemma keeps_flags_bind {A B : Type} (m : M Bot A) (k : A -> M Bot B) :
  keeps_flags m -> (forall a, keeps_flags (k a)) -> keeps_flags (bind m k).
Proof.
  intros Hm Hk req g o g' t. unfold bind.
  destruct (m req g) as [[[a|e] g1] t1] eqn:E1.
  - destruct (k a req g1) as [[r g2] t2] eqn:E2.
    intros E; injection E as <- <- <-.
    destruct (Hm _ _ _ _ _ E1), (Hk a _ _ _ _ _ E2). split; congruence.
  - intros E; injection E as <- <- <-. exact (Hm _ _ _ _ _ E1).
Qed.

Lemma keeps_flags_try_except {A : Type} (m : M Bot A)
      (h : exception -> M Bot A) :
  keeps_flags m -> (forall e, keeps_flags (h e)) ->
  keeps_flags (try_except m h).
Proof.
  intros Hm Hh req g o g' t. unfold try_except.
  destruct (m req g) as [[[a|e] g1] t1] eqn:E1.
  - intros E; injection E as <- <- <-. exact (Hm _ _ _ _ _ E1).
  - destruct (derives_from_Exception e).
    + destruct (h e req g1) as [[r g2] t2] eqn:E2.
      intros E; injection E as <- <- <-.
      destruct (Hm _ _ _ _ _ E1), (Hh e _ _ _ _ _ E2). split; congruence.
    + intros E; injection E as <- <- <-. exact (Hm _ _ _ _ _ E1).
Qed.

Lemma keeps_flags_bot_answer_question (q : str) (sid : option json) :
  keeps_flags (bot_answer_question q sid).
Proof.
  intros req g o g' t. unfold bot_answer_question.
  destruct (bot g) as [b|]; [destruct (answer_question b q sid)|];
    intros E; injection E as <- <- <-; auto.
Qed.

Lemma keeps_flags_bot_clear_session_memory (n : N) :
  keeps_flags (bot_clear_session_memory n).
Proof.
  intros req g o g' t. unfold bot_clear_session_memory.
  destruct (bot g) as [b|]; [destruct (clear_session_memory b n)|];
    intros E; injection E as <- <- <-; auto.
Qed.

Ltac keeps_flags_step :=
  first
    [ apply keeps_flags_ret
    | apply keeps_flags_raise
    | apply keeps_flags_global
    | apply keeps_flags_the_request
    | apply keeps_flags_bot_answer_question
    | apply keeps_flags_bot_clear_session_memory
    | apply keeps_flags_bind; [|intros ?]
    | apply keeps_flags_try_except; [|intros ?]
    | match goal with
      | |- keeps_flags (if ?c then _ else _) => destruct c
      | |- keeps_flags (match ?x with _ => _ end) => destruct x
      end ].

Ltac keeps_flags_auto := repeat keeps_flags_step.

Lemma keeps_flags_ask_question (q : json) : keeps_flags (ask_question q).
Proof.
  unfold ask_question, is_blank, strip_method. keeps_flags_auto.
Qed.

Lemma keeps_flags_ask_question_with_session (q sid : json) :
  keeps_flags (ask_question_with_session q sid).
Proof.
  unfold ask_question_with_session, is_blank, strip_method. keeps_flags_auto.
Qed.

Lemma keeps_flags_view (r : rule) : keeps_flags (view r).
Proof.
  destruct r; unfold view, health_check, chat, status, chatbot_status,
    chatbot_ask, reset_session_memory, contains, getitem, get, print.
  all: repeat first [ apply keeps_flags_ask_question
                    | apply keeps_flags_ask_question_with_session
                    | keeps_flags_step ].
Qed.

Lemma keeps_flags_full_dispatch_request : keeps_flags full_dispatch_request.
Proof.
  unfold full_dispatch_request, dispatch_request, process_response, finalize,
    apply_cors, cors_after_request.
  repeat first [ apply keeps_flags_view | keeps_flags_step ].
Qed.

Lemma reads_only_ret {A : Type} (a : A) : reads_only (Bot := Bot) (ret a).
Proof. intros req g; eexists; reflexivity. Qed.

Lemma reads_only_global {A : Type} (f : gateway Bot -> A) :
  reads_only (global f).
Proof. intros req g; eexists; reflexivity. Qed.

Lemma reads_only_the_request {A : Type} (f : request -> A) :
  reads_only (Bot := Bot) (the_request f).
Proof. intros req g; eexists; reflexivity. Qed.

Lemma reads_only_bind {A B : Type} (m : M Bot A) (k : A -> M Bot B) :
  reads_only m -> (forall a, reads_only (k a)) -> reads_only (bind m k).
Proof.
  intros Hm Hk req g. unfold bind.
  destruct (Hm req g) as [[a|e] ->]; [|eexists; reflexivity].
  destruct (Hk a req g) as [o ->]. eexists; reflexivity.
Qed.

Ltac reads_only_step :=
  first
    [ apply reads_only_ret
    | apply reads_only_global
    | apply reads_only_the_request
    | apply reads_only_bind; [|intros ?]
    | match goal with
      | |- reads_only (if ?c then _ else _) => destruct c
      | |- reads_only (match ?x with _ => _ end) => destruct x
      end ].

Lemma reads_only_health_check : reads_only (Bot := Bot) health_check.
Proof. unfold health_check. repeat reads_only_step. Qed.

Lemma reads_only_status : reads_only (Bot := Bot) status.
Proof. unfold status. repeat reads_only_step. Qed.

Lemma reads_only_chatbot_status : reads_only (Bot := Bot) chatbot_status.
Proof. unfold chatbot_status. repeat reads_only_step. Qed.

Lemma reads_only_process_response (resp : response) :
  reads_only (Bot := Bot) (process_response resp).
Proof.
  intros req g. destruct (process_response_keeps resp req g) as [r [E _]].
  eexists; exact E.
Qed.

Lemma reads_only_finalize (resp : response) :
  reads_only (Bot := Bot) (finalize resp).
Proof. unfold finalize. repeat reads_only_step. Qed.

(** A request served by code that only reads is served without a trace. *)
Lemma reads_only_full_dispatch_request (r : rule) req g :
  url_rule req = Some r -> reads_only (view r) ->
  exists o, full_dispatch_request req g = (o, g, []).
Proof.
  intros U Hv.
  assert (Hd : exists o, dispatch_request req g = (o, g, [])).
  { unfold dispatch_request, bind, the_request. rewrite U.
    destruct (existsb _ _); [destruct (Hv req g) as [o ->]; eexists; reflexivity|].
    destruct (method req); try (eexists; reflexivity).
    destruct (existsb _ _); [|eexists; reflexivity].
    destruct (Hv req g) as [o ->]; eexists; reflexivity. }
  destruct Hd as [[resp|e] Hd].
  - destruct (reads_only_process_response resp req g) as [[r1|e1] E1];
      unfold full_dispatch_request, bind; rewrite Hd, E1;
      [|eexists; reflexivity].
    destruct (reads_only_finalize r1 req g) as [o ->]. eexists; reflexivity.
  - rewrite (full_dispatch_request_raises _ _ _ _ _ Hd). eexists; reflexivity.
Qed.

(** *** The server *)

Lemma serve_keeps_flags (requests : list request) g :
  CHATBOT_READY (snd (fst (serve requests g))) = CHATBOT_READY g /\
  CHATBOT_ERROR (snd (fst (serve requests g))) = CHATBOT_ERROR g.
Proof.
  revert g; induction requests as [|req rest IH]; intros g; simpl; [auto|].
  destruct (full_dispatch_request req g) as [[r g1] t1] eqn:E1.
  specialize (IH g1). destruct (serve rest g1) as [[rs g2] t2]. simpl in *.
  destruct (keeps_flags_full_dispatch_request _ _ _ _ _ E1).
  destruct IH. split; congruence.
Qed.

(** C9. The readiness flag and the captured error text are what the
    start of the module made them: whatever requests the server has
    handled from any state, [CHATBOT_READY] and [CHATBOT_ERROR] are
    unchanged, in particular after [initialize].  The health and status
    handlers leave the whole module state as it is and do not call the
    collaborator. *)
Theorem readiness_flag_is_read_only :
  (forall (requests : list request) g,
      CHATBOT_READY (snd (fst (serve requests g))) = CHATBOT_READY g /\
      CHATBOT_ERROR (snd (fst (serve requests g))) = CHATBOT_ERROR g)
  /\ (forall (requests : list request),
         CHATBOT_READY (snd (fst (serve requests initialize)))
         = CHATBOT_READY initialize /\
         CHATBOT_ERROR (snd (fst (serve requests initialize)))
         = CHATBOT_ERROR initialize)
  /\ (forall req g (r : rule),
         url_rule req = Some r ->
         r = rule_health_check \/ r = rule_status \/ r = rule_chatbot_status ->
         exists o, full_dispatch_request req g = (o, g, [])).
Proof.
  split; [|split].
  - exact serve_keeps_flags.
  - intros requests. apply serve_keeps_flags.
  - intros req g r U [-> | [-> | ->]];
      apply (reads_only_full_dispatch_request _ _ _ U).
    + exact reads_only_health_check.
    + exact reads_only_status.
    + exact reads_only_chatbot_status.
Qed.

(** *** Preflight requests *)

Lemma dispatch_request_options (r : rule) req g :
  method req = OPTIONS -> url_rule req = Some r ->
  dispatch_request req g =
  (Returns {| status_code := 200; response_body := Text []; headers := [] |},
   g, []).
Proof.
  intros Hm U. unfold dispatch_request, bind, the_request. rewrite U, Hm.
  destruct r;
    cbv beta iota delta [existsb methods http_method_eqb orb view
                         chatbot_status chatbot_ask bind the_request];
    rewrite ?Hm; reflexivity.
Qed.

(** C8. An [OPTIONS] request to a registered route, the three
    [/api/chatbot/*] routes (status, ask and reset) among them, is
    answered 200 with an empty body, whatever the readiness flag and the
    rest of the module state are; the state is left as it is and the
    collaborator is not called. *)
Theorem options_request_is_empty_200 :
  forall req g (r : rule),
    method req = OPTIONS -> url_rule req = Some r ->
    exists resp,
      full_dispatch_request req g = (Returns resp, g, []) /\
      status_code resp = 200%N /\
      response_body resp = Text [].
Proof.
  intros req g r Hm U.
  destruct (full_dispatch_request_returns _ _ _ _ _
              (dispatch_request_options r req g Hm U)) as [resp [E [S B]]].
  exists resp. repeat split; [exact E | exact S |].
  apply B. congruence.
Qed.

(** *** Resetting the memory of a session *)

Lemma post_dispatch (r : rule) req g :
  method req = POST -> url_rule req = Some r ->
  r = rule_chat \/ r = rule_chatbot_ask \/
  (exists n, r = rule_reset_session_memory n) ->
  dispatch_request req g = view r req g.
Proof.
  intros Hm U H. apply dispatch_request_view; [exact U|]. rewrite Hm.
  destruct H as [-> | [-> | [n ->]]]; reflexivity.
Qed.

Lemma post_not_head req : method req = POST -> method req <> HEAD.
Proof. congruence. Qed.

Lemma post_not_options req : method req = POST -> method req <> OPTIONS.
Proof. congruence. Qed.


(** *** Asking a question *)

(** C5. [POST /chat] with a message that is not blank, the collaborator
    ready and [answer_question] returning a string: the answer is 200,
    its ['response'] field is the string the collaborator returned, its
    ['question'] field is the message as it was sent, and it has a
    ['timestamp'] field. *)
Theorem chat_relays_the_answer :
  forall req g (kvs : list (str * json)) (m a : str) (b b' : Bot),
    method req = POST -> url_rule req = Some rule_chat ->
    get_json req = JObj kvs -> assoc (lit "message") kvs = Some (JStr m) ->
    forallb isspace m = false ->
    CHATBOT_READY g = true -> bot g = Some b ->
    answer_question b (strip m) None = (Returns (JStr a), b') ->
    exists resp,
      full_dispatch_request req g
      = (Returns resp, set_bot g b',
         [Event (Call_answer_question (strip m) None) None]) /\
      status_code resp = 200%N /\
      body_field (lit "response") resp = Some (JStr a) /\
      body_field (lit "question") resp = Some (JStr m) /\
      body_field (lit "timestamp") resp = Some (JStr (datetime_now req)).
Proof.
  intros req g kvs m a b b' Hm U D A H R B C.
  assert (E : dispatch_request req g = chat req g)
    by (apply (post_dispatch _ _ _ Hm U); auto).
  rewrite (chat_answered kvs m b req g D A R H B), C in E.
  destruct (full_dispatch_request_returns _ _ _ _ _ E) as [resp [F [S Bd]]].
  exists resp. split; [exact F|]. split; [exact S|].
  unfold body_field. rewrite (Bd (post_not_head _ Hm)).
  repeat split; reflexivity.
Qed.

Lemma error_response_fields (text : str) (code : N) (resp : response) :
  response_body resp
  = response_body (with_status (jsonify (error_dict text)) code) ->
  body_field (lit "error") resp = Some (JStr text).
Proof. intros E. unfold body_field. rewrite E. reflexivity. Qed.


(** *** A collaborator that could not be constructed *)

Lemma initialize_failed (e : exception) :
  construction_raises e ->
  initialize
  = {| CHATBOT_READY := false; CHATBOT_ERROR := Some (exc_text e);
       bot := None |}.
Proof.
  unfold initialize. intros [E | [db [E1 E2]]].
  - rewrite E. reflexivity.
  - rewrite E1, E2. reflexivity.
Qed.

(** What the startup could catch and print: the exception that made
    the construction fail derives from [Exception], and the console took
    its text. *)
Lemma construction_raises_printable (e : exception) :
  construction_raises e ->
  derives_from_Exception e = true /\
  existsb console_refuses (exc_text e) = false.
Proof. exact (module_starts e). Qed.


(** *** What reaches the collaborator *)

(** X19. A [POST] to [/chat] or [/api/chatbot/ask] with a message that
    is not blank, the collaborator ready and, on [/api/chatbot/ask], the
    console taking the line the handler prints: the one call the bot
    receives carries the message without the whitespace at its two
    ends, and when the call returns the answer is 200 and its
    ['question'] field is the message as it was sent. *)
Theorem logged_question_reaches_bot_stripped :
  forall req g (r : rule) (kvs : list (str * json)) (m : str) (b : Bot),
    method req = POST -> url_rule req = Some r ->
    r = rule_chat \/ r = rule_chatbot_ask ->
    get_json req = JObj kvs -> assoc (lit "message") kvs = Some (JStr m) ->
    forallb isspace m = false ->
    (r = rule_chatbot_ask -> print_refused [session_of kvs; JStr m] = false) ->
    CHATBOT_READY g = true -> bot g = Some b ->
    exists o g' q sid ex left right,
      full_dispatch_request req g
      = (o, g', [Event (Call_answer_question q sid) ex]) /\
      q = strip m /\
      m = left ++ q ++ right /\
      forallb isspace left = true /\ forallb isspace right = true /\
      starts_with_space q = false /\ starts_with_space (rev q) = false /\
      (ex = None ->
       exists resp,
         o = Returns resp /\
         status_code resp = 200%N /\
         body_field (lit "question") resp = Some (JStr m)).
Proof.
  intros req g r kvs m b Hm U Hr Dj A H P R B.
  assert (D : dispatch_request req g = view r req g)
    by (apply (post_dispatch _ _ _ Hm U); tauto).
  pose proof (post_not_head _ Hm) as Hh.
  pose proof (post_not_options _ Hm) as Ho.
  destruct (strip_spec m) as [left [right [Em [Hl [Hr' [Hs He]]]]]].
  assert (V : view r req g
              = match answer_question b (strip m)
                        (match r with
                         | rule_chat => None
                         | _ => Some (session_of kvs)
                         end) with
                | (Returns a, b') =>
                    (Returns (jsonify
                       (JObj ([(lit "question", JStr m);
                               (lit "response", a);
                               (lit "timestamp", JStr (datetime_now req))]
                              ++ match r with
                                 | rule_chat => []
                                 | _ => [(lit "session_id", session_of kvs)]
                                 end))),
                     set_bot g b',
                     [Event (Call_answer_question (strip m)
                               (match r with
                                | rule_chat => None
                                | _ => Some (session_of kvs)
                                end)) None])
                | (Raises e, b') =>
                    (if derives_from_Exception e
                     then Returns (with_status
                                     (jsonify (error_dict
                                        (lit "Error processing question: "
                                         ++ exc_text e))) 500)
                     else Raises e,
                     set_bot g b',
                     [Event (Call_answer_question (strip m)
                               (match r with
                                | rule_chat => None
                                | _ => Some (session_of kvs)
                                end)) (Some e)])
                end).
  { destruct Hr as [-> | ->]; unfold view.
    - exact (chat_answered kvs m b req g Dj A R H B).
    - exact (chatbot_ask_answered kvs m b req g Ho Dj A (P eq_refl) R H B). }
  rewrite V in D. clear V.
  destruct (answer_question b (strip m) _) as [[a|e] b'].
  - destruct (full_dispatch_request_returns _ _ _ _ _ D) as [resp [E [S Bd]]].
    exists (Returns resp). do 6 eexists. split; [exact E|].
    split; [reflexivity|]. split; [exact Em|].
    split; [exact Hl|]. split; [exact Hr'|].
    split; [exact Hs|]. split; [exact He|].
    intros _. exists resp. split; [reflexivity|]. split; [exact S|].
    unfold body_field. rewrite (Bd Hh). reflexivity.
  - assert (F : exists o, full_dispatch_request req g
                          = (o, set_bot g b',
                             [Event (Call_answer_question (strip m)
                                (match r with
                                 | rule_chat => None
                                 | _ => Some (session_of kvs)
                                 end)) (Some e)])).
    { destruct (derives_from_Exception e).
      - destruct (full_dispatch_request_returns _ _ _ _ _ D) as [resp [E _]].
        eexists; exact E.
      - eexists; exact (full_dispatch_request_raises _ _ _ _ _ D). }
    destruct F as [o F]. exists o. do 6 eexists. split; [exact F|].
    split; [reflexivity|]. split; [exact Em|].
    split; [exact Hl|]. split; [exact Hr'|].
    split; [exact Hs|]. split; [exact He|].
    discriminate.
Qed.

(** C6. A [POST /api/chatbot/ask] that carries a [session_id] and is
    answered 200: the bot was called once, through the session-aware
    form of [answer_question], with that session identifier, and the
    body of the answer has the same value under ['session_id']. *)
Theorem chatbot_ask_passes_session_id :
  forall req g (kvs : list (str * json)) (sid : json) (resp : response)
         (g' : gateway Bot) (t : list event),
    method req = POST -> url_rule req = Some rule_chatbot_ask ->
    get_json req = JObj kvs -> assoc (lit "session_id") kvs = Some sid ->
    full_dispatch_request req g = (Returns resp, g', t) ->
    status_code resp = 200%N ->
    body_field (lit "session_id") resp = Some sid /\
    exists m,
      assoc (lit "message") kvs = Some (JStr m) /\
      t = [Event (Call_answer_question (strip m) (Some sid)) None].
Proof.
  intros req g kvs sid resp g' t Hm U Dj As F S.
  assert (D : dispatch_request req g = chatbot_ask req g)
    by (apply (post_dispatch _ _ _ Hm U); auto).
  pose proof (post_not_head _ Hm) as Hh.
  pose proof (post_not_options _ Hm) as Ho.
  assert (Es : session_of kvs = sid) by (unfold session_of; rewrite As; auto).
  destruct (chatbot_ask_cases req g Ho)
    as [[o [E Hq]] | [kvs' [m [b [Dj' [A [P [H [R B]]]]]]]]].
  - rewrite E in D. destruct o as [r0|e].
    + destruct (full_dispatch_request_returns _ _ _ _ _ D) as [r1 [F1 [S1 _]]].
      rewrite F1 in F. injection F as -> _ _.
      destruct (Hq r0 eq_refl) as [[X|X] _]; rewrite S1, X in S; discriminate.
    + rewrite (full_dispatch_request_raises _ _ _ _ _ D) in F. discriminate.
  - rewrite Dj in Dj'. injection Dj' as <-.
    rewrite (chatbot_ask_answered kvs m b req g Ho Dj A P R H B), Es in D.
    destruct (answer_question b (strip m) (Some sid)) as [[a|e] b'];
      [|destruct (derives_from_Exception e);
        [|rewrite (full_dispatch_request_raises _ _ _ _ _ D) in F;
          discriminate]];
      destruct (full_dispatch_request_returns _ _ _ _ _ D)
        as [r1 [F1 [S1 B1]]];
      rewrite F1 in F; injection F as -> _ <-.
    + split; [|exists m; auto].
      unfold body_field. rewrite (B1 Hh). reflexivity.
    + rewrite S1 in S. discriminate.
Qed.

(** *** Exceptions of the collaborator *)

Lemma view_raised (r : rule) req g (o : outcome response) (g' : gateway Bot)
      (t : list event) (c : call) (e : exception) :
  view r req g = (o, g', t) -> In (Event c (Some e)) t ->
  exists text,
    o = if derives_from_Exception e
        then Returns (with_status
                        (jsonify (error_dict (text ++ exc_text e))) 500)
        else Raises e.
Proof.
  intros V I.
  assert (Quiet : forall o0, view r req g = (o0, g, []) -> False).
  { intros o0 E. rewrite E in V. injection V as _ _ <-. exact I. }
  destruct r; unfold view in *.
  - destruct (reads_only_health_check req g) as [o0 E]. elim (Quiet _ E).
  - destruct (chat_cases req g)
      as [[o0 [E _]] | [kvs [m [b [Dj [A [H [R B]]]]]]]]; [elim (Quiet _ E)|].
    rewrite (chat_answered kvs m b req g Dj A R H B) in V.
    destruct (answer_question b (strip m) None) as [[a|e0] b'];
      injection V as <- _ <-; destruct I as [I|[]]; [discriminate|].
    injection I as _ <-. exists (lit "Error processing question: ").
    reflexivity.
  - destruct (reads_only_status req g) as [o0 E]. elim (Quiet _ E).
  - destruct (reads_only_chatbot_status req g) as [o0 E]. elim (Quiet _ E).
  - assert (Ho : method req = OPTIONS \/ method req <> OPTIONS)
      by (destruct (method req); auto; right; discriminate).
    destruct Ho as [Ho|Ho];
      [elim (Quiet _ (chatbot_ask_options req g Ho))|].
    destruct (chatbot_ask_cases req g Ho)
      as [[o0 [E _]] | [kvs [m [b [Dj [A [P [H [R B]]]]]]]]];
      [elim (Quiet _ E)|].
    rewrite (chatbot_ask_answered kvs m b req g Ho Dj A P R H B) in V.
    destruct (answer_question b (strip m) (Some (session_of kvs)))
      as [[a|e0] b'];
      injection V as <- _ <-; destruct I as [I|[]]; [discriminate|].
    injection I as _ <-. exists (lit "Error processing question: ").
    reflexivity.
  - destruct (reset_session_memory_cases session_id req g)
      as [[r0 [E _]] | [b [R B]]]; [elim (Quiet _ E)|].
    rewrite (reset_session_memory_called session_id b req g R B) in V.
    destruct (clear_session_memory b session_id) as [[a|e0] b'];
      injection V as <- _ <-; destruct I as [I|[]]; [discriminate|].
    injection I as _ <-. exists (lit "Failed to reset session memory: ").
    reflexivity.
Qed.

Lemma dispatch_request_raised req g (o : outcome response) (g' : gateway Bot)
      (t : list event) (c : call) (e : exception) :
  dispatch_request req g = (o, g', t) -> In (Event c (Some e)) t ->
  method req <> HEAD /\
  exists text,
    o = if derives_from_Exception e
        then Returns (with_status
                        (jsonify (error_dict (text ++ exc_text e))) 500)
        else Raises e.
Proof.
  intros D I.
  assert (Quiet : forall o0, dispatch_request req g = (o0, g, []) -> False).
  { intros o0 E. rewrite E in D. injection D as _ _ <-. exact I. }
  destruct (url_rule req) as [r|] eqn:U.
  - destruct (existsb (http_method_eqb (method req)) (methods r)) eqn:X.
    + rewrite (dispatch_request_view r req g U X) in D. split.
      * intros Hm. rewrite Hm in X. destruct r; discriminate.
      * exact (view_raised _ _ _ _ _ _ _ _ D I).
    + exfalso.
      assert (G : existsb (http_method_eqb GET) (methods r) = true ->
                  exists o0, view r req g = (o0, g, [])).
      { destruct r; try discriminate; intros _; unfold view.
        - apply reads_only_health_check.
        - apply reads_only_status.
        - apply reads_only_chatbot_status. }
      revert Quiet. unfold dispatch_request, bind, the_request.
      rewrite U, X. intros Quiet.
      destruct (method req); try (eapply Quiet; reflexivity).
      destruct (existsb (http_method_eqb GET) (methods r));
        [|eapply Quiet; reflexivity].
      destruct (G eq_refl) as [o0 E]. rewrite E in Quiet.
      eapply Quiet; reflexivity.
  - exfalso. revert Quiet. unfold dispatch_request, bind, the_request.
    rewrite U. intros Quiet. eapply Quiet; reflexivity.
Qed.

(** C4, as the code has it.  Whenever a call of the collaborator made
    for a request, be it [answer_question] or [clear_session_memory],
    raises an exception that derives from [Exception], the handler
    catches it: the request is answered, with status 500 and an error
    message that ends with the text of the exception. *)
Theorem collaborator_exception_is_answered_500 :
  forall req g (o : outcome response) (g' : gateway Bot) (t : list event)
         (c : call) (e : exception),
    full_dispatch_request req g = (o, g', t) ->
    In (Event c (Some e)) t ->
    derives_from_Exception e = true ->
    exists resp text,
      o = Returns resp /\
      status_code resp = 500%N /\
      body_field (lit "error") resp = Some (JStr (text ++ exc_text e)).
Proof.
  intros req g o g' t c e F I X.
  destruct (dispatch_request req g) as [[o0 g0] t0] eqn:D.
  assert (t0 = t).
  { destruct o0 as [r0|e0].
    - destruct (full_dispatch_request_returns _ _ _ _ _ D) as [r1 [F1 _]].
      congruence.
    - pose proof (full_dispatch_request_raises _ _ _ _ _ D). congruence. }
  subst t0.
  destruct (dispatch_request_raised _ _ _ _ _ _ _ D I) as [Hh [text Eo]].
  rewrite X in Eo. subst o0.
  destruct (full_dispatch_request_returns _ _ _ _ _ D) as [r1 [F1 [S1 B1]]].
  exists r1, text. split; [congruence|]. split; [exact S1|].
  exact (error_response_fields _ _ _ (B1 Hh)).
Qed.

(** X21. An exception of the collaborator that does not derive from
    [Exception], such as [SystemExit] or [KeyboardInterrupt], is not
    caught: it leaves the handler, and the request is not answered by
    it. *)
Theorem other_exception_leaves_the_handler :
  forall req g (o : outcome response) (g' : gateway Bot) (t : list event)
         (c : call) (e : exception),
    full_dispatch_request req g = (o, g', t) ->
    In (Event c (Some e)) t ->
    derives_from_Exception e = false ->
    o = Raises e.
Proof.
  intros req g o g' t c e F I X.
  destruct (dispatch_request req g) as [[o0 g0] t0] eqn:D.
  assert (t0 = t).
  { destruct o0 as [r0|e0].
    - destruct (full_dispatch_request_returns _ _ _ _ _ D) as [r1 [F1 _]].
      congruence.
    - pose proof (full_dispatch_request_raises _ _ _ _ _ D). congruence. }
  subst t0.
  destruct (dispatch_request_raised _ _ _ _ _ _ _ D I) as [Hh [text Eo]].
  rewrite X in Eo. subst o0.
  pose proof (full_dispatch_request_raises _ _ _ _ _ D). congruence.
Qed.

(** *** The origin checker *)

Lemma header_set_header_same (k v : str) (hs : list (str * str)) :
  header k (set_header k v hs) = Some v.
Proof.
  induction hs as [|[k' v'] hs IH]; simpl.
  - rewrite str_eqb_refl. reflexivity.
  - destruct (str_eqb k k') eqn:E; simpl; rewrite E; [reflexivity | exact IH].
Qed.

Lemma header_set_header_other (k k' v : str) (hs : list (str * str)) :
  str_eqb k k' = false ->
  header k (set_header k' v hs) = header k hs.
Proof.
  intros Hk. induction hs as [|[k0 v0] hs IH]; simpl.
  - rewrite Hk. reflexivity.
  - destruct (str_eqb k' k0) eqn:E; simpl.
    + apply str_eqb_eq in E. subst k0. rewrite Hk. reflexivity.
    + rewrite IH. reflexivity.
Qed.

(** Every origin the pattern lets through is echoed by [apply_cors],
    with credentials allowed. *)
Lemma apply_cors_grants (o : str) (resp : response) req g :
  Origin req = Some o -> re_match origin_pattern o = true ->
  exists resp',
    apply_cors resp req g = (Returns resp', g, []) /\
    header (lit "Access-Control-Allow-Origin") (headers resp') = Some o /\
    header (lit "Access-Control-Allow-Credentials") (headers resp')
    = Some (lit "true").
Proof.
  intros Ho Hm. unfold apply_cors, bind, the_request. rewrite Ho.
  destruct o as [|c o]; [discriminate Hm|]. rewrite Hm.
  eexists. split; [reflexivity|]. unfold with_header; cbn [headers]. split.
  - rewrite !header_set_header_other by reflexivity.
    apply header_set_header_same.
  - rewrite !header_set_header_other by reflexivity.
    apply header_set_header_same.
Qed.

(** The pattern is anchored at the start only: whatever follows
    [https://unycompass.vercel.app] in an origin, the origin is let
    through. *)
Lemma origin_pattern_any_suffix (suffix : str) :
  re_match origin_pattern (lit "https://unycompass.vercel.app" ++ suffix)
  = true.
Proof.
  apply origin_pattern_spec. exists [], [], suffix.
  repeat split; constructor.
Qed.

(** ** Further properties of the handlers *)

(** *** Messages that are not strings *)

Lemma is_blank_falsy (q : json) req g :
  truthy q = false -> is_blank q req g = (Returns true, g, []).
Proof. intros T. unfold is_blank. rewrite T. reflexivity. Qed.

Lemma is_blank_not_text (q : json) req g :
  truthy q = true -> (forall m, q <> JStr m) ->
  is_blank q req g
  = (Raises (AttributeError (type_name q) (lit "strip")), g, []).
Proof.
  intros T Q. unfold is_blank, bind, strip_method. rewrite T. cbn [negb].
  destruct q; try reflexivity. elim (Q s). reflexivity.
Qed.

Lemma ask_question_falsy (q : json) req g :
  CHATBOT_READY g = true -> truthy q = false ->
  ask_question q req g
  = (Returns (error_dict (lit "Question cannot be empty")), g, []).
Proof.
  intros R T. ask_unfold. rewrite R. cbn [negb].
  rewrite (is_blank_falsy q req g T). reflexivity.
Qed.

Lemma ask_question_with_session_falsy (q sid : json) req g :
  CHATBOT_READY g = true -> truthy q = false ->
  ask_question_with_session q sid req g
  = (Returns (error_dict (lit "Question cannot be empty")), g, []).
Proof.
  intros R T. ask_unfold. rewrite R. cbn [negb].
  rewrite (is_blank_falsy q req g T). reflexivity.
Qed.

Lemma ask_question_not_text (q : json) req g :
  CHATBOT_READY g = true -> truthy q = true -> (forall m, q <> JStr m) ->
  ask_question q req g
  = (Raises (AttributeError (type_name q) (lit "strip")), g, []).
Proof.
  intros R T Q. ask_unfold. rewrite R. cbn [negb].
  rewrite (is_blank_not_text q req g T Q). reflexivity.
Qed.

Lemma ask_question_with_session_not_text (q sid : json) req g :
  CHATBOT_READY g = true -> truthy q = true -> (forall m, q <> JStr m) ->
  ask_question_with_session q sid req g
  = (Raises (AttributeError (type_name q) (lit "strip")), g, []).
Proof.
  intros R T Q. ask_unfold. rewrite R. cbn [negb].
  rewrite (is_blank_not_text q req g T Q). reflexivity.
Qed.

Lemma ask_view_not_text (r : rule) (kvs : list (str * json)) (v : json)
      req g :
  r = rule_chat \/ r = rule_chatbot_ask -> method req <> OPTIONS ->
  get_json req = JObj kvs -> assoc (lit "message") kvs = Some v ->
  (r = rule_chatbot_ask -> print_refused [session_of kvs; v] = false) ->
  CHATBOT_READY g = true -> truthy v = true -> (forall m, v <> JStr m) ->
  view r req g = (Raises (AttributeError (type_name v) (lit "strip")), g, []).
Proof.
  intros [-> | ->] Ho D A P R T Q; unfold view; enter_ask D A;
    fold (session_of kvs);
    try (rewrite (print_taken _ req g (P eq_refl)); cbn [negb]).
  - rewrite (ask_question_not_text v req g R T Q). reflexivity.
  - rewrite (ask_question_with_session_not_text v _ req g R T Q).
    reflexivity.
Qed.

Lemma ask_view_falsy (r : rule) (kvs : list (str * json)) (v : json) req g :
  r = rule_chat \/ r = rule_chatbot_ask -> method req <> OPTIONS ->
  get_json req = JObj kvs -> assoc (lit "message") kvs = Some v ->
  (r = rule_chatbot_ask -> print_refused [session_of kvs; v] = false) ->
  CHATBOT_READY g = true -> truthy v = false ->
  view r req g
  = (Returns (with_status
                (jsonify (error_dict (lit "Question cannot be empty"))) 500),
     g, []).
Proof.
  intros [-> | ->] Ho D A P R T; unfold view; enter_ask D A;
    fold (session_of kvs);
    try (rewrite (print_taken _ req g (P eq_refl)); cbn [negb]).
  - rewrite (ask_question_falsy v req g R T). reflexivity.
  - rewrite (ask_question_with_session_falsy v _ req g R T). reflexivity.
Qed.

(** X4. With the collaborator ready, a [POST] to [/chat] or
    [/api/chatbot/ask] whose ['message'] is a true value that is not a
    string (a number, [true], a non-empty list or object) makes
    [question.strip()] raise [AttributeError] outside the [try], on
    [/api/chatbot/ask] once the console has taken the line the handler
    prints: the exception leaves the handler, the state is unchanged and
    the collaborator is not called. *)
Theorem non_string_message_raises_attribute_error :
  forall req g (r : rule) (kvs : list (str * json)) (v : json),
    method req = POST -> url_rule req = Some r ->
    r = rule_chat \/ r = rule_chatbot_ask ->
    get_json req = JObj kvs -> assoc (lit "message") kvs = Some v ->
    (forall m, v <> JStr m) -> truthy v = true ->
    (r = rule_chatbot_ask -> print_refused [session_of kvs; v] = false) ->
    CHATBOT_READY g = true ->
    full_dispatch_request req g
    = (Raises (AttributeError (type_name v) (lit "strip")), g, []).
Proof.
  intros req g r kvs v Hm U Hr D A Q T P R.
  apply full_dispatch_request_raises.
  rewrite (post_dispatch r req g Hm U) by tauto.
  exact (ask_view_not_text r kvs v req g Hr (post_not_options _ Hm)
           D A P R T Q).
Qed.

(** X5. With the collaborator ready, a [POST] to [/chat] or
    [/api/chatbot/ask] whose ['message'] is a false value of any type
    ([null], [false], [0], [0.0], the empty string, list or object) is
    answered 500 with the error ['Question cannot be empty'], on
    [/api/chatbot/ask] once the console has taken the line the handler
    prints; the state is unchanged and the collaborator is not called. *)
Theorem falsy_message_is_answered_500 :
  forall req g (r : rule) (kvs : list (str * json)) (v : json),
    method req = POST -> url_rule req = Some r ->
    r = rule_chat \/ r = rule_chatbot_ask ->
    get_json req = JObj kvs -> assoc (lit "message") kvs = Some v ->
    truthy v = false ->
    (r = rule_chatbot_ask -> print_refused [session_of kvs; v] = false) ->
    CHATBOT_READY g = true ->
    exists resp,
      full_dispatch_request req g = (Returns resp, g, []) /\
      status_code resp = 500%N /\
      body_field (lit "error") resp
      = Some (JStr (lit "Question cannot be empty")).
Proof.
  intros req g r kvs v Hm U Hr D A T P R.
  assert (E : dispatch_request req g = view r req g)
    by (apply (post_dispatch _ _ _ Hm U); tauto).
  rewrite (ask_view_falsy r kvs v req g Hr (post_not_options _ Hm) D A P R T)
    in E.
  destruct (full_dispatch_request_returns _ _ _ _ _ E) as [resp [F [S B]]].
  exists resp. split; [exact F|]. split; [exact S|].
  exact (error_response_fields _ _ _ (B (post_not_head _ Hm))).
Qed.

(** *** Bodies that are not JSON objects *)

Lemma ask_view_no_message (r : rule) req g :
  r = rule_chat \/ r = rule_chatbot_ask -> method req <> OPTIONS ->
  truthy (get_json req) = false \/
  (exists l, get_json req = JArr l /\ existsb is_message l = false) \/
  (exists s, get_json req = JStr s /\
             str_contains (lit "message") s = false) ->
  view r req g = (Returns missing_message, g, []).
Proof.
  intros Hr Ho H. pose proof (not_options _ Ho) as Hopt.
  destruct H as [T | [[l [D E]] | [s [D E]]]];
    destruct Hr as [-> | ->]; unfold view, chat, chatbot_ask, bind,
      the_request; rewrite ?Hopt.
  - rewrite T. reflexivity.
  - rewrite T. reflexivity.
  - rewrite D. destruct l; [reflexivity|]. unfold is_message in E.
    unfold truthy, contains, ret; cbn [negb]. rewrite E. reflexivity.
  - rewrite D. destruct l; [reflexivity|]. unfold is_message in E.
    unfold truthy, contains, ret; cbn [negb]. rewrite E. reflexivity.
  - rewrite D. destruct s; [reflexivity|].
    unfold truthy, contains, ret; cbn [negb]. rewrite E. reflexivity.
  - rewrite D. destruct s; [reflexivity|].
    unfold truthy, contains, ret; cbn [negb]. rewrite E. reflexivity.
Qed.

Lemma ask_view_type_error (r : rule) req g :
  r = rule_chat \/ r = rule_chatbot_ask -> method req <> OPTIONS ->
  (forall kvs, get_json req <> JObj kvs) ->
  truthy (get_json req) = true ->
  (forall l, get_json req = JArr l -> existsb is_message l = true) ->
  (forall s, get_json req = JStr s ->
             str_contains (lit "message") s = true) ->
  exists e,
    view r req g = (Raises e, g, []) /\ exc_class e = lit "TypeError".
Proof.
  intros Hr Ho Hobj T Hl Hs. pose proof (not_options _ Ho) as Hopt.
  destruct (get_json req) as [|b|n|f|s|l|kvs] eqn:D;
    try discriminate T; try (elim (Hobj kvs); reflexivity);
    try (specialize (Hl l eq_refl); unfold is_message in Hl);
    try specialize (Hs s eq_refl);
    destruct Hr as [-> | ->];
    unfold view, chat, chatbot_ask, bind, the_request;
    rewrite ?Hopt, D, T;
    unfold contains, getitem, ret, raise; cbn [negb];
    rewrite ?Hl, ?Hs; eexists; split; reflexivity.
Qed.

(** X6. A [POST] to [/chat] or [/api/chatbot/ask] whose body is a false
    value ([null], [false], [0], the empty string, list or object), a
    list none of whose elements is the string ['message'], or a string
    that does not contain [message], is answered 400 with the error that
    asks for a ['message'] field; the state is unchanged and the
    collaborator is not called. *)
Theorem body_without_message_is_answered_400 :
  forall req g (r : rule),
    method req = POST -> url_rule req = Some r ->
    r = rule_chat \/ r = rule_chatbot_ask ->
    truthy (get_json req) = false \/
    (exists l, get_json req = JArr l /\ existsb is_message l = false) \/
    (exists s, get_json req = JStr s /\
               str_contains (lit "message") s = false) ->
    exists resp,
      full_dispatch_request req g = (Returns resp, g, []) /\
      status_code resp = 400%N /\
      body_field (lit "error") resp
      = Some (JStr (lit "Please provide a 'message' field in your request")).
Proof.
  intros req g r Hm U Hr H.
  assert (E : dispatch_request req g = view r req g)
    by (apply (post_dispatch _ _ _ Hm U); tauto).
  rewrite (ask_view_no_message r req g Hr (post_not_options _ Hm) H) in E.
  destruct (full_dispatch_request_returns _ _ _ _ _ E) as [resp [F [S B]]].
  exists resp. split; [exact F|]. split; [exact S|].
  exact (error_response_fields _ _ _ (B (post_not_head _ Hm))).
Qed.

(** X7. A [POST] to [/chat] or [/api/chatbot/ask] whose body is a true
    value other than an object makes the handler raise [TypeError]
    unless it is answered 400: [true] and the numbers other than zero do
    not support [in]; a list with the element ['message'] and a string
    containing [message] pass the test and then fail at
    [data['message']].  The exception leaves the handler; the state is
    unchanged and the collaborator is not called. *)
Theorem non_object_body_raises_type_error :
  forall req g (r : rule),
    method req = POST -> url_rule req = Some r ->
    r = rule_chat \/ r = rule_chatbot_ask ->
    (forall kvs, get_json req <> JObj kvs) ->
    truthy (get_json req) = true ->
    (forall l, get_json req = JArr l -> existsb is_message l = true) ->
    (forall s, get_json req = JStr s ->
               str_contains (lit "message") s = true) ->
    exists e,
      full_dispatch_request req g = (Raises e, g, []) /\
      exc_class e = lit "TypeError".
Proof.
  intros req g r Hm U Hr Hobj T Hl Hs.
  destruct (ask_view_type_error r req g Hr (post_not_options _ Hm)
                                Hobj T Hl Hs) as [e [V C]].
  exists e. split; [|exact C].
  apply full_dispatch_request_raises.
  rewrite (post_dispatch r req g Hm U) by tauto. exact V.
Qed.

(** *** The exceptions that leave a handler *)

(** A request with a string for its message is answered, unless the
    bot raises an exception that [except Exception] lets through. *)
Lemma ask_view_text_cases (r : rule) (kvs : list (str * json)) (m : str)
      req g :
  r = rule_chat \/ r = rule_chatbot_ask -> method req <> OPTIONS ->
  get_json req = JObj kvs -> assoc (lit "message") kvs = Some (JStr m) ->
  (r = rule_chatbot_ask -> print_refused [session_of kvs; JStr m] = false) ->
  (exists resp g' t, view r req g = (Returns resp, g', t))
  \/ (exists e c b',
        derives_from_Exception e = false /\ CHATBOT_READY g = true /\
        call_of r req c /\
        view r req g = (Raises e, set_bot g b', [Event c (Some e)])).
Proof.
  intros Hr Ho D A P.
  destruct (CHATBOT_READY g) eqn:R.
  - destruct (forallb isspace m) eqn:H.
    + left. destruct Hr as [-> | ->]; unfold view; enter_ask D A;
        fold (session_of kvs);
        try (rewrite (print_taken _ req g (P eq_refl)); cbn [negb]).
      * rewrite (ask_question_blank m req g R H). do 3 eexists. reflexivity.
      * rewrite (ask_question_with_session_blank m _ req g R H).
        do 3 eexists. reflexivity.
    + destruct (bot g) as [b|] eqn:B.
      * destruct Hr as [-> | ->]; unfold view.
        -- rewrite (chat_answered kvs m b req g D A R H B).
           destruct (answer_question b (strip m) None) as [[a|e] b'];
             [left; do 3 eexists; reflexivity|].
           destruct (derives_from_Exception e) eqn:X;
             [left; do 3 eexists; reflexivity|].
           right. exists e, (Call_answer_question (strip m) None), b'.
           split; [exact X|]. split; [reflexivity|]. split; [|reflexivity].
           exists kvs, m. auto.
        -- rewrite (chatbot_ask_answered kvs m b req g Ho D A (P eq_refl)
                      R H B).
           destruct (answer_question b (strip m) (Some (session_of kvs)))
             as [[a|e] b']; [left; do 3 eexists; reflexivity|].
           destruct (derives_from_Exception e) eqn:X;
             [left; do 3 eexists; reflexivity|].
           right.
           exists e, (Call_answer_question (strip m) (Some (session_of kvs))),
             b'.
           split; [exact X|]. split; [reflexivity|]. split; [|reflexivity].
           exists kvs, m. auto.
      * left. destruct Hr as [-> | ->]; unfold view; enter_ask D A;
          fold (session_of kvs);
          try (rewrite (print_taken _ req g (P eq_refl)); cbn [negb]);
          ask_call R H B; do 3 eexists; reflexivity.
  - left. destruct Hr as [-> | ->]; unfold view; enter_ask D A;
      fold (session_of kvs);
      try (rewrite (print_taken _ req g (P eq_refl)); cbn [negb]).
    + rewrite (ask_question_unavailable _ req g R). do 3 eexists. reflexivity.
    + rewrite (ask_question_with_session_unavailable _ _ req g R).
      do 3 eexists. reflexivity.
Qed.

Lemma chatbot_ask_not_logged (kvs : list (str * json)) (v : json) req g :
  method req <> OPTIONS ->
  get_json req = JObj kvs -> assoc (lit "message") kvs = Some v ->
  print_refused [session_of kvs; v] = true ->
  chatbot_ask req g = (Raises UnicodeEncodeError, g, []).
Proof.
  intros Ho D A P. enter_ask D A. fold (session_of kvs).
  rewrite (print_not_taken _ req g P). reflexivity.
Qed.

Lemma ask_view_raises_inv (r : rule) req g (e : exception)
      (g' : gateway Bot) (t : list event) :
  r = rule_chat \/ r = rule_chatbot_ask -> method req <> OPTIONS ->
  view r req g = (Raises e, g', t) ->
  (g' = g /\ t = [] /\
   ((exc_class e = lit "TypeError" /\
     forall kvs, get_json req <> JObj kvs)
    \/ (exc_class e = lit "UnicodeEncodeError" /\
        r = rule_chatbot_ask /\
        exists kvs v,
          get_json req = JObj kvs /\
          assoc (lit "message") kvs = Some v /\
          print_refused [session_of kvs; v] = true)
    \/ (exc_class e = lit "AttributeError" /\
        CHATBOT_READY g = true /\
        exists kvs v,
          get_json req = JObj kvs /\
          assoc (lit "message") kvs = Some v /\
          (forall m, v <> JStr m) /\ truthy v = true)))
  \/ (derives_from_Exception e = false /\ CHATBOT_READY g = true /\
      exists c b',
        call_of r req c /\ t = [Event c (Some e)] /\ g' = set_bot g b').
Proof.
  intros Hr Ho V.
  assert (Obj : (exists kvs, get_json req = JObj kvs) \/
                forall kvs, get_json req <> JObj kvs).
  { destruct (get_json req); try (right; discriminate). left; eauto. }
  destruct Obj as [[kvs D] | Hobj].
  - destruct (assoc (lit "message") kvs) as [v|] eqn:A.
    + assert (Pr : (r = rule_chatbot_ask /\
                    print_refused [session_of kvs; v] = true) \/
                   (r = rule_chatbot_ask ->
                    print_refused [session_of kvs; v] = false)).
      { destruct Hr as [-> | ->]; [right; discriminate|].
        destruct (print_refused [session_of kvs; v]); auto. }
      destruct Pr as [[-> P] | P].
      { unfold view in V.
        rewrite (chatbot_ask_not_logged kvs v req g Ho D A P) in V.
        injection V as <- <- <-. left. do 2 (split; [reflexivity|]).
        right. left. split; [reflexivity|]. split; [reflexivity|].
        exists kvs, v. auto. }
      assert (Q : (exists m, v = JStr m) \/ forall m, v <> JStr m).
      { destruct v; try (right; discriminate). left; eauto. }
      destruct Q as [[m ->] | Q].
      { destruct (ask_view_text_cases r kvs m req g Hr Ho D A P)
          as [[resp [g1 [t1 E]]] | [e0 [c [b' [X [R [C E]]]]]]];
          [congruence|].
        rewrite E in V. injection V as <- <- <-. right.
        split; [exact X|]. split; [exact R|]. exists c, b'. auto. }
      left. destruct (CHATBOT_READY g) eqn:R.
      * destruct (truthy v) eqn:T.
        -- rewrite (ask_view_not_text r kvs v req g Hr Ho D A P R T Q) in V.
           injection V as <- <- <-. do 2 (split; [reflexivity|]).
           right. right.
           split; [reflexivity|]. split; [reflexivity|].
           exists kvs, v. auto.
        -- rewrite (ask_view_falsy r kvs v req g Hr Ho D A P R T) in V.
           discriminate.
      * exfalso. revert V.
        destruct Hr as [-> | ->]; unfold view; enter_ask D A;
          fold (session_of kvs);
          try (rewrite (print_taken _ req g (P eq_refl)); cbn [negb]).
        -- rewrite (ask_question_unavailable _ req g R). discriminate.
        -- rewrite (ask_question_with_session_unavailable _ _ req g R).
           discriminate.
    + exfalso.
      assert (M : message_missing (get_json req)) by (right; eauto).
      destruct Hr as [-> | ->]; unfold view in V.
      * rewrite (chat_missing req g M) in V. discriminate.
      * rewrite (chatbot_ask_missing req g Ho M) in V. discriminate.
  - left.
    assert (Lack :
        (truthy (get_json req) = false \/
         (exists l, get_json req = JArr l /\ existsb is_message l = false) \/
         (exists s, get_json req = JStr s /\
                    str_contains (lit "message") s = false))
        \/ (truthy (get_json req) = true /\
            (forall l, get_json req = JArr l ->
                       existsb is_message l = true) /\
            (forall s, get_json req = JStr s ->
                       str_contains (lit "message") s = true))).
    { destruct (truthy (get_json req)) eqn:T; [|auto].
      destruct (get_json req) as [|b|n|f|s|l|kvs] eqn:D;
        try (right; split; [reflexivity|]; split; intros ? E; discriminate E).
      - destruct (str_contains (lit "message") s) eqn:C.
        + right. split; [reflexivity|]. split; intros ? E;
            [discriminate E | injection E as <-; exact C].
        + left. right. right. eauto.
      - destruct (existsb is_message l) eqn:C.
        + right. split; [reflexivity|]. split; intros ? E;
            [injection E as <-; exact C | discriminate E].
        + left. right. left. eauto. }
    destruct Lack as [L | [T [Hl Hs]]].
    + rewrite (ask_view_no_message r req g Hr Ho L) in V. discriminate.
    + destruct (ask_view_type_error r req g Hr Ho Hobj T Hl Hs) as [e0 [E C]].
      rewrite E in V. injection V as <- <- <-. auto.
Qed.

Lemma reset_session_memory_raises_inv (n : N) req g (e : exception)
      (g' : gateway Bot) (t : list event) :
  reset_session_memory n req g = (Raises e, g', t) ->
  derives_from_Exception e = false /\ CHATBOT_READY g = true /\
  exists b',
    t = [Event (Call_clear_session_memory n) (Some e)] /\ g' = set_bot g b'.
Proof.
  intros V.
  destruct (reset_session_memory_cases n req g)
    as [[resp [E _]] | [b [R B]]]; [congruence|].
  rewrite (reset_session_memory_called n b req g R B) in V.
  destruct (clear_session_memory b n) as [[u|e0] b']; [discriminate|].
  destruct (derives_from_Exception e0) eqn:X; [discriminate|].
  injection V as <- <- <-. split; [exact X|]. split; [exact R|].
  exists b'. auto.
Qed.

(** The views that only read always answer. *)
Lemma reading_view_returns (r : rule) req g :
  r = rule_health_check \/ r = rule_status \/ r = rule_chatbot_status ->
  exists resp g' t, view r req g = (Returns resp, g', t).
Proof.
  intros [-> | [-> | ->]]; unfold view.
  - do 3 eexists. reflexivity.
  - do 3 eexists. reflexivity.
  - unfold chatbot_status, bind, the_request.
    destruct (http_method_eqb (method req) OPTIONS); do 3 eexists; reflexivity.
Qed.

Lemma dispatch_request_raises_inv req g (e : exception) (g' : gateway Bot)
      (t : list event) :
  dispatch_request req g = (Raises e, g', t) ->
  exists r,
    url_rule req = Some r /\ method req = POST /\
    view r req g = (Raises e, g', t).
Proof.
  intros D.
  destruct (url_rule req) as [r|] eqn:U.
  - assert (Kind : (r = rule_chat \/ r = rule_chatbot_ask \/
                    exists n, r = rule_reset_session_memory n) \/
                   (r = rule_health_check \/ r = rule_status \/
                    r = rule_chatbot_status)).
    { destruct r; eauto 6. }
    destruct (existsb (http_method_eqb (method req)) (methods r)) eqn:X.
    + rewrite (dispatch_request_view r req g U X) in D.
      destruct Kind as [Hr | Hr].
      * exists r. repeat split; auto.
        destruct Hr as [-> | [-> | [n ->]]]; destruct (method req) eqn:Hm;
          try discriminate X; try reflexivity.
        unfold view in D.
        rewrite (chatbot_ask_options req g Hm) in D. discriminate.
      * destruct (reading_view_returns r req g Hr) as [resp [g1 [t1 E]]].
        congruence.
    + exfalso. revert D. unfold dispatch_request, bind, the_request.
      rewrite U, X.
      destruct (method req); try discriminate.
      destruct (existsb (http_method_eqb GET) (methods r)) eqn:G;
        [|discriminate].
      destruct Kind as [[-> | [-> | [n ->]]] | Hr]; try discriminate G.
      destruct (reading_view_returns r req g Hr) as [resp [g1 [t1 ->]]].
      discriminate.
  - exfalso. revert D. unfold dispatch_request, bind, the_request.
    rewrite U. discriminate.
Qed.

(** X8. The exceptions that leave a handler.  Whenever a request ends
    in an exception it is a [POST], and either the collaborator was not
    called and the state is unchanged, the request went to [/chat] or
    [/api/chatbot/ask] and the exception is a [TypeError] for a body
    that is not an object, a [UnicodeEncodeError] for a line that the
    console refused to print on [/api/chatbot/ask], or, with the
    collaborator ready, an [AttributeError] for a true ['message'] that
    is not a string; or it is an exception that does not derive from
    [Exception], raised by the one call of the collaborator the request
    made. *)
Theorem exceptions_that_leave_a_handler :
  forall req g (e : exception) (g' : gateway Bot) (t : list event),
    full_dispatch_request req g = (Raises e, g', t) ->
    method req = POST /\
    exists r,
      url_rule req = Some r /\
      ((g' = g /\ t = [] /\
        (r = rule_chat \/ r = rule_chatbot_ask) /\
        ((exc_class e = lit "TypeError" /\
          forall kvs, get_json req <> JObj kvs)
         \/ (exc_class e = lit "UnicodeEncodeError" /\
             r = rule_chatbot_ask /\
             exists kvs v,
               get_json req = JObj kvs /\
               assoc (lit "message") kvs = Some v /\
               print_refused [session_of kvs; v] = true)
         \/ (exc_class e = lit "AttributeError" /\
             CHATBOT_READY g = true /\
             exists kvs v,
               get_json req = JObj kvs /\
               assoc (lit "message") kvs = Some v /\
               (forall m, v <> JStr m) /\ truthy v = true)))
       \/ (derives_from_Exception e = false /\ CHATBOT_READY g = true /\
           exists c b',
             call_of r req c /\ t = [Event c (Some e)] /\
             g' = set_bot g b')).
Proof.
  intros req g e g' t F.
  destruct (dispatch_request req g) as [[[resp|e0] g0] t0] eqn:D.
  - destruct (full_dispatch_request_returns _ _ _ _ _ D) as [r1 [F1 _]].
    congruence.
  - rewrite (full_dispatch_request_raises _ _ _ _ _ D) in F.
    injection F as -> -> ->.
    destruct (dispatch_request_raises_inv _ _ _ _ _ D) as [r [U [Hm V]]].
    split; [exact Hm|]. exists r. split; [exact U|].
    assert (Kind : (r = rule_chat \/ r = rule_chatbot_ask) \/
                   (exists n, r = rule_reset_session_memory n) \/
                   (r = rule_health_check \/ r = rule_status \/
                    r = rule_chatbot_status)).
    { destruct r; eauto 6. }
    destruct Kind as [Hr | [[n ->] | Hr]].
    + destruct (ask_view_raises_inv r req g e g' t Hr
                  (post_not_options _ Hm) V)
        as [[Eg [Et H]] | H]; [left; auto | right; exact H].
    + right. unfold view in V.
      destruct (reset_session_memory_raises_inv n req g e g' t V)
        as [X [R [b' [Et Eg]]]].
      split; [exact X|]. split; [exact R|].
      exists (Call_clear_session_memory n), b'. split; [reflexivity|]. auto.
    + destruct (reading_view_returns r req g Hr) as [resp [g1 [t1 E]]].
      congruence.
Qed.

(** *** What one request does to the module state *)

Lemma view_step (r : rule) req g :
  (exists o, view r req g = (o, g, []))
  \/ (CHATBOT_READY g = true /\
      (r = rule_chatbot_ask -> method req <> OPTIONS) /\
      exists b b' o c ex,
        bot g = Some b /\ call_of r req c /\
        view r req g = (o, set_bot g b', [Event c ex])).
Proof.
  destruct r; unfold view.
  - left. apply reads_only_health_check.
  - destruct (chat_cases req g)
      as [[o [E _]] | [kvs [m [b [D [A [H [R B]]]]]]]]; [left; eauto|].
    right. split; [exact R|]. split; [discriminate|].
    rewrite (chat_answered kvs m b req g D A R H B).
    destruct (answer_question b (strip m) None) as [[a|e] b'];
      exists b, b'; do 3 eexists;
      (split; [exact B|]); (split; [|reflexivity]);
      exists kvs, m; auto.
  - left. apply reads_only_status.
  - left. apply reads_only_chatbot_status.
  - assert (Ho : method req = OPTIONS \/ method req <> OPTIONS)
      by (destruct (method req); auto; right; discriminate).
    destruct Ho as [Ho|Ho];
      [left; eexists; exact (chatbot_ask_options req g Ho)|].
    destruct (chatbot_ask_cases req g Ho)
      as [[o [E _]] | [kvs [m [b [D [A [P [H [R B]]]]]]]]]; [left; eauto|].
    right. split; [exact R|]. split; [auto|].
    rewrite (chatbot_ask_answered kvs m b req g Ho D A P R H B).
    destruct (answer_question b (strip m) (Some (session_of kvs)))
      as [[a|e] b'];
      exists b, b'; do 3 eexists;
      (split; [exact B|]); (split; [|reflexivity]);
      exists kvs, m; auto.
  - destruct (reset_session_memory_cases session_id req g)
      as [[resp [E _]] | [b [R B]]]; [left; eauto|].
    right. split; [exact R|]. split; [discriminate|].
    rewrite (reset_session_memory_called session_id b req g R B).
    destruct (clear_session_memory b session_id) as [[u|e] b'];
      exists b, b'; do 3 eexists;
      (split; [exact B|]); (split; [|reflexivity]); reflexivity.
Qed.

Lemma dispatch_request_step req g :
  (exists o, dispatch_request req g = (o, g, []))
  \/ (method req = POST /\ CHATBOT_READY g = true /\
      exists r b b' o c ex,
        url_rule req = Some r /\ bot g = Some b /\ call_of r req c /\
        dispatch_request req g = (o, set_bot g b', [Event c ex])).
Proof.
  destruct (url_rule req) as [r|] eqn:U.
  - destruct (existsb (http_method_eqb (method req)) (methods r)) eqn:X.
    + rewrite (dispatch_request_view r req g U X).
      destruct (view_step r req g)
        as [Q | [R [Ho [b [b' [o [c [ex [B [C V]]]]]]]]]]; [left; exact Q|].
      right. split; [|split; [exact R|]].
      * destruct r; try (elim C);
          destruct (method req); try discriminate X; try reflexivity.
        elim (Ho eq_refl). reflexivity.
      * exists r, b, b', o, c, ex. auto.
    + left. unfold dispatch_request, bind, the_request. rewrite U, X.
      destruct (method req); try (eexists; reflexivity).
      destruct (existsb (http_method_eqb GET) (methods r)) eqn:G;
        [|eexists; reflexivity].
      assert (Q : exists o, view r req g = (o, g, [])).
      { destruct r; try discriminate G; unfold view.
        - apply reads_only_health_check.
        - apply reads_only_status.
        - apply reads_only_chatbot_status. }
      destruct Q as [o ->]. eexists; reflexivity.
  - left. unfold dispatch_request, bind, the_request. rewrite U.
    eexists; reflexivity.
Qed.

(** A request either leaves the module state as it is and makes no
    call, or is a [POST] served by a ready gateway that makes exactly
    one call and leaves the bot in the state that call produced. *)
Lemma full_dispatch_request_step req g :
  (exists o, full_dispatch_request req g = (o, g, []))
  \/ (method req = POST /\ CHATBOT_READY g = true /\
      exists r b b' o c ex,
        url_rule req = Some r /\ bot g = Some b /\ call_of r req c /\
        full_dispatch_request req g = (o, set_bot g b', [Event c ex])).
Proof.
  destruct (dispatch_request_step req g)
    as [[o D] | [Hm [R [r [b [b' [o [c [ex [U [B [C D]]]]]]]]]]]].
  - left. destruct o as [resp|e].
    + destruct (full_dispatch_request_returns _ _ _ _ _ D) as [r1 [F _]].
      eauto.
    + rewrite (full_dispatch_request_raises _ _ _ _ _ D). eauto.
  - right. split; [exact Hm|]. split; [exact R|].
    destruct o as [resp|e].
    + destruct (full_dispatch_request_returns _ _ _ _ _ D) as [r1 [F _]].
      exists r, b, b', (Returns r1), c, ex. auto.
    + exists r, b, b', (Raises e), c, ex.
      rewrite (full_dispatch_request_raises _ _ _ _ _ D). auto.
Qed.

(** X9. Whatever the request and the state, the collaborator is called
    only for a [POST] to [/chat], [/api/chatbot/ask] or the reset route
    while [CHATBOT_READY] is true, and then exactly once; every other
    request leaves the whole module state as it was. *)
Theorem collaborator_is_called_only_by_ready_post :
  forall req g,
    (snd (full_dispatch_request req g) = [] /\
     snd (fst (full_dispatch_request req g)) = g)
    \/ (method req = POST /\ CHATBOT_READY g = true /\
        (url_rule req = Some rule_chat \/
         url_rule req = Some rule_chatbot_ask \/
         exists n, url_rule req = Some (rule_reset_session_memory n)) /\
        exists c ex, snd (full_dispatch_request req g) = [Event c ex]).
Proof.
  intros req g.
  destruct (full_dispatch_request_step req g)
    as [[o F] | [Hm [R [r [b [b' [o [c [ex [U [B [C F]]]]]]]]]]]];
    rewrite F; simpl; [left; auto|].
  right. split; [exact Hm|]. split; [exact R|]. split; [|eauto].
  destruct r; try (elim C); eauto.
Qed.

(** X10. The server makes at most one collaborator call per request:
    the log of calls of a run is never longer than the list of requests
    served. *)
Theorem at_most_one_call_per_request :
  forall (requests : list request) g,
    List.length (snd (serve requests g)) <= List.length requests.
Proof.
  intros requests g.
  revert g; induction requests as [|req rest IH]; intros g; simpl; [auto|].
  destruct (full_dispatch_request req g) as [[r g1] t1] eqn:F.
  specialize (IH g1). destruct (serve rest g1) as [[rs g2] t2]. simpl in *.
  rewrite List.length_app.
  assert (List.length t1 <= 1).
  { destruct (full_dispatch_request_step req g)
      as [[o F1] | [_ [_ [r0 [b [b' [o [c [ex [_ [_ [_ F1]]]]]]]]]]]];
      rewrite F1 in F; injection F as _ _ <-; simpl; auto. }
  lia.
Qed.

Lemma serve_calls (requests : list request) g (c : call)
      (ex : option exception) :
  In (Event c ex) (snd (serve requests g)) ->
  exists req r, In req requests /\ url_rule req = Some r /\ call_of r req c.
Proof.
  revert g; induction requests as [|req rest IH]; intros g; simpl; [tauto|].
  destruct (full_dispatch_request req g) as [[o g1] t1] eqn:F.
  specialize (IH g1). destruct (serve rest g1) as [[rs g2] t2]. simpl in *.
  intros I. apply in_app_or in I. destruct I as [I|I].
  - destruct (full_dispatch_request_step req g)
      as [[o1 F1] | [_ [_ [r [b [b' [o1 [c1 [ex1 [U [_ [C F1]]]]]]]]]]]];
      rewrite F1 in F; injection F as _ _ <-; [elim I|].
    destruct I as [I|[]]. injection I as <- _. exists req, r. auto.
  - destruct (IH I) as [req0 [r [Hin H]]]. exists req0, r. auto.
Qed.

(** X11. The bot is never asked a blank question: in any run of the
    server, the question of every [answer_question] call is not empty
    and has no whitespace character at either end. *)
Theorem bot_is_never_asked_a_blank_question :
  forall (requests : list request) g (q : str) (sid : option json)
         (ex : option exception),
    In (Event (Call_answer_question q sid) ex) (snd (serve requests g)) ->
    q <> [] /\
    starts_with_space q = false /\ starts_with_space (rev q) = false.
Proof.
  intros requests g q sid ex I.
  destruct (serve_calls requests g _ _ I) as [req [r [_ [_ C]]]].
  assert (S : exists m, forallb isspace m = false /\ q = strip m).
  { destruct r; try (elim C); try discriminate C;
      destruct C as [kvs [m [_ [_ [H E]]]]]; injection E as -> _; eauto. }
  destruct S as [m [H ->]].
  destruct (strip_spec m) as [_ [_ [_ [_ [_ [Hs He]]]]]].
  split; [|auto].
  intros E. apply strip_nil_iff in E. congruence.
Qed.

(** *** The state the startup leaves *)

Lemma initialize_as_initialized : as_initialized initialize.
Proof.
  unfold as_initialized, initialize.
  destruct UNYCompassDatabase as [db|e] eqn:E1.
  - destruct (UNYCompassBot db) as [b|e] eqn:E2.
    + left. simpl. eauto.
    + right. simpl. split; [reflexivity|]. split; [|reflexivity].
      exists e. split; [right; eauto | reflexivity].
  - right. simpl. split; [reflexivity|]. split; [|reflexivity].
    exists e. split; [left; exact E1 | reflexivity].
Qed.

Lemma serve_as_initialized (requests : list request) g :
  as_initialized g -> as_initialized (snd (fst (serve requests g))).
Proof.
  revert g; induction requests as [|req rest IH]; intros g P; simpl; [exact P|].
  destruct (full_dispatch_request req g) as [[o g1] t1] eqn:F.
  assert (P1 : as_initialized g1).
  { destruct (full_dispatch_request_step req g)
      as [[o1 F1] | [_ [R [r [b [b' [o1 [c [ex [_ [B [_ F1]]]]]]]]]]]];
      rewrite F1 in F; injection F as _ <- _; [exact P|].
    destruct P as [[_ [E _]] | [R' _]]; [|congruence].
    left. simpl. eauto. }
  specialize (IH g1 P1). destruct (serve rest g1) as [[rs g2] t2]. exact IH.
Qed.

(** X1. After the startup and any number of requests the module is in
    one of two states: [CHATBOT_READY] is true, [CHATBOT_ERROR] is
    [None] and there is a bot; or [CHATBOT_READY] is false,
    [CHATBOT_ERROR] is the text of the exception that made the
    construction of the database or of the bot fail, and [bot] is
    [None]. *)
Theorem module_state_stays_as_initialized :
  forall (requests : list request),
    let g := snd (fst (serve requests initialize)) in
    (CHATBOT_READY g = true /\ CHATBOT_ERROR g = None /\
     exists b, bot g = Some b)
    \/ (CHATBOT_READY g = false /\
        (exists e, construction_raises e /\
                   CHATBOT_ERROR g = Some (exc_text e)) /\
        bot g = None).
Proof.
  intros requests.
  exact (serve_as_initialized requests initialize initialize_as_initialized).
Qed.

(** X2. After the startup and any number of requests, [GET /status]
    tells how the startup went.  When the database and the bot were
    constructed, [chatbot_ready] is true, the status is ['ready'] and
    ['error'] is null.  When the construction raised, [chatbot_ready]
    is false, the status is ['error'] and ['error'] is the text of that
    exception. *)
Theorem status_reports_the_startup :
  forall (requests : list request) req g,
    g = snd (fst (serve requests initialize)) ->
    method req = GET -> url_rule req = Some rule_status ->
    exists resp,
      full_dispatch_request req g = (Returns resp, g, []) /\
      status_code resp = 200%N /\
      ((exists db b,
           UNYCompassDatabase = Returns db /\ UNYCompassBot db = Returns b) ->
       body_field (lit "chatbot_ready") resp = Some (JBool true) /\
       body_field (lit "status") resp = Some (JStr (lit "ready")) /\
       body_field (lit "error") resp = Some JNull)
      /\ (forall e,
             construction_raises e ->
             body_field (lit "chatbot_ready") resp = Some (JBool false) /\
             body_field (lit "status") resp = Some (JStr (lit "error")) /\
             body_field (lit "error") resp = Some (JStr (exc_text e))).
Proof.
  intros requests req g Hg Hm U.
  destruct (serve_keeps_flags requests initialize) as [R C].
  rewrite <- Hg in R, C.
  assert (D : dispatch_request req g = status req g).
  { apply (dispatch_request_view rule_status req g U). rewrite Hm.
    reflexivity. }
  assert (Hh : method req <> HEAD) by (rewrite Hm; discriminate).
  unfold status, bind, global in D.
  destruct (full_dispatch_request_returns _ _ _ _ _ D) as [resp [E [S B]]].
  exists resp. split; [exact E|]. split; [exact S|].
  unfold body_field. rewrite (B Hh), R, C. split.
  - intros [db [b [E1 E2]]]. unfold initialize. rewrite E1, E2.
    repeat split; reflexivity.
  - intros e Hf. rewrite (initialize_failed e Hf).
    repeat split; reflexivity.
Qed.

(** *** Status codes and error payloads *)

Lemma calling_view_answers (r : rule) req g (resp : response)
      (g' : gateway Bot) (t : list event) :
  r = rule_chat \/ r = rule_chatbot_ask \/
  (exists n, r = rule_reset_session_memory n) ->
  method req <> OPTIONS ->
  view r req g = (Returns resp, g', t) ->
  (status_code resp = 200%N /\ body_field (lit "error") resp = None)
  \/ ((status_code resp = 400%N \/ status_code resp = 500%N) /\
      exists text, body_field (lit "error") resp = Some (JStr text)).
Proof.
  intros Hr Ho V.
  assert (Err : forall o,
             view r req g = (o, g, []) ->
             (forall resp0, o = Returns resp0 ->
                (status_code resp0 = 400%N \/ status_code resp0 = 500%N) /\
                exists text, response_body resp0 = Json (error_dict text)) ->
             (status_code resp = 400%N \/ status_code resp = 500%N) /\
             exists text, body_field (lit "error") resp = Some (JStr text)).
  { intros o E Ho'. rewrite E in V. injection V as -> _ _.
    destruct (Ho' resp eq_refl) as [S [text B]].
    split; [exact S|]. exists text. unfold body_field. rewrite B.
    reflexivity. }
  destruct Hr as [-> | [-> | [n ->]]]; unfold view in *.
  - destruct (chat_cases req g)
      as [[o [E Hq]] | [kvs [m [b [D [A [H [R B]]]]]]]];
      [right; exact (Err o E Hq)|].
    rewrite (chat_answered kvs m b req g D A R H B) in V.
    destruct (answer_question b (strip m) None) as [[a|e] b'];
      [|destruct (derives_from_Exception e); [|discriminate V]];
      injection V as <- _ _.
    + left. split; reflexivity.
    + right. split; [right; reflexivity | eexists; reflexivity].
  - destruct (chatbot_ask_cases req g Ho)
      as [[o [E Hq]] | [kvs [m [b [D [A [P [H [R B]]]]]]]]];
      [right; exact (Err o E Hq)|].
    rewrite (chatbot_ask_answered kvs m b req g Ho D A P R H B) in V.
    destruct (answer_question b (strip m) (Some (session_of kvs)))
      as [[a|e] b'];
      [|destruct (derives_from_Exception e); [|discriminate V]];
      injection V as <- _ _.
    + left. split; reflexivity.
    + right. split; [right; reflexivity | eexists; reflexivity].
  - destruct (reset_session_memory_cases n req g)
      as [[r0 [E [S [text Bd]]]] | [b [R B]]].
    + rewrite E in V. injection V as <- _ _. right.
      split; [right; exact S|]. exists text. unfold body_field.
      rewrite Bd. reflexivity.
    + rewrite (reset_session_memory_called n b req g R B) in V.
      destruct (clear_session_memory b n) as [[u|e] b'];
        [|destruct (derives_from_Exception e); [|discriminate V]];
        injection V as <- _ _.
      * left. split; reflexivity.
      * right. split; [right; reflexivity | eexists; reflexivity].
Qed.

(** X3. The status code of what a handler returns tells whether the
    body is an error.  For a [POST] with a parsed JSON body to [/chat],
    [/api/chatbot/ask] or the reset route, whenever the handler returns
    a response rather than raising, that response is either 200 without
    an ['error'] field, or 400 or 500 with an ['error'] field that holds
    a string.  (The pages Flask itself sends for a body it refuses to
    parse and for an exception that leaves the handler are not
    responses of the handlers.) *)
Theorem status_code_tells_error_payload :
  forall req g (r : rule) (resp : response) (g' : gateway Bot)
         (t : list event),
    method req = POST -> url_rule req = Some r ->
    r = rule_chat \/ r = rule_chatbot_ask \/
    (exists n, r = rule_reset_session_memory n) ->
    full_dispatch_request req g = (Returns resp, g', t) ->
    (status_code resp = 200%N /\ body_field (lit "error") resp = None)
    \/ ((status_code resp = 400%N \/ status_code resp = 500%N) /\
        exists text, body_field (lit "error") resp = Some (JStr text)).
Proof.
  intros req g r resp g' t Hm U Hr F.
  pose proof (post_dispatch r req g Hm U Hr) as D.
  destruct (view r req g) as [[[r0|e] g0] t0] eqn:V.
  - destruct (full_dispatch_request_returns _ _ _ _ _ D) as [r1 [F1 [S B]]].
    rewrite F1 in F. injection F as -> _ _.
    pose proof (calling_view_answers r req g r0 g0 t0 Hr
                  (post_not_options _ Hm) V) as H.
    unfold body_field in *. rewrite (B (post_not_head _ Hm)), S. exact H.
  - rewrite (full_dispatch_request_raises _ _ _ _ _ D) in F. discriminate.
Qed.

(** *** The session identifier *)

(** X12. A [POST /api/chatbot/ask] without a ['session_id'] field still
    goes through the session-aware call: once the console has taken the
    line the handler prints, the bot is called with [session_id=None],
    and the 200 answer carries ['session_id': null]. *)
Theorem chatbot_ask_without_session_id :
  forall req g (kvs : list (str * json)) (m : str) (a : json) (b b' : Bot),
    method req = POST -> url_rule req = Some rule_chatbot_ask ->
    get_json req = JObj kvs -> assoc (lit "message") kvs = Some (JStr m) ->
    assoc (lit "session_id") kvs = None ->
    forallb isspace m = false ->
    print_refused [JNull; JStr m] = false ->
    CHATBOT_READY g = true -> bot g = Some b ->
    answer_question b (strip m) (Some JNull) = (Returns a, b') ->
    exists resp,
      full_dispatch_request req g
      = (Returns resp, set_bot g b',
         [Event (Call_answer_question (strip m) (Some JNull)) None]) /\
      status_code resp = 200%N /\
      body_field (lit "session_id") resp = Some JNull /\
      body_field (lit "response") resp = Some a.
Proof.
  intros req g kvs m a b b' Hm U D A As H P R B C.
  assert (E : dispatch_request req g = chatbot_ask req g)
    by (apply (post_dispatch _ _ _ Hm U); auto).
  assert (Es : session_of kvs = JNull)
    by (unfold session_of; rewrite As; reflexivity).
  rewrite <- Es in P.
  rewrite (chatbot_ask_answered kvs m b req g (post_not_options _ Hm)
             D A P R H B), Es, C in E.
  destruct (full_dispatch_request_returns _ _ _ _ _ E) as [resp [F [S Bd]]].
  exists resp. split; [exact F|]. split; [exact S|].
  unfold body_field. rewrite (Bd (post_not_head _ Hm)).
  split; reflexivity.
Qed.

(** X13. [POST /chat] takes no notice of a ['session_id'] in the body:
    whatever else the body holds, the bot is called without a session
    identifier and the answer has no ['session_id'] field.  The request
    is answered unless that call raised an exception that does not
    derive from [Exception]. *)
Theorem chat_ignores_session_id :
  forall req g (kvs : list (str * json)) (m : str) (b : Bot),
    method req = POST -> url_rule req = Some rule_chat ->
    get_json req = JObj kvs -> assoc (lit "message") kvs = Some (JStr m) ->
    forallb isspace m = false ->
    CHATBOT_READY g = true -> bot g = Some b ->
    exists o g' ex,
      full_dispatch_request req g
      = (o, g', [Event (Call_answer_question (strip m) None) ex]) /\
      (forall resp,
          o = Returns resp -> body_field (lit "session_id") resp = None) /\
      (forall e,
          o = Raises e -> ex = Some e /\ derives_from_Exception e = false).
Proof.
  intros req g kvs m b Hm U D A H R B.
  assert (E : dispatch_request req g = chat req g)
    by (apply (post_dispatch _ _ _ Hm U); auto).
  rewrite (chat_answered kvs m b req g D A R H B) in E.
  assert (Ok : forall resp0 g0 t0,
             dispatch_request req g = (Returns resp0, g0, t0) ->
             body_field (lit "session_id") resp0 = None ->
             exists o,
               full_dispatch_request req g = (o, g0, t0) /\
               (forall resp,
                   o = Returns resp ->
                   body_field (lit "session_id") resp = None) /\
               (forall e,
                   o = Raises e ->
                   raised (A := json) (Raises e) = None)).
  { intros resp0 g0 t0 E0 N.
    destruct (full_dispatch_request_returns _ _ _ _ _ E0)
      as [resp [F [S Bd]]].
    exists (Returns resp). split; [exact F|]. split; [|discriminate].
    intros ? Er. injection Er as <-. unfold body_field in *.
    rewrite (Bd (post_not_head _ Hm)). exact N. }
  destruct (answer_question b (strip m) None) as [[a|e] b'].
  - destruct (Ok _ _ _ E eq_refl) as [o [F [N _]]].
    exists o. do 2 eexists. split; [exact F|]. split; [exact N|].
    intros e Er. destruct o; [discriminate Er|].
    destruct (full_dispatch_request_returns _ _ _ _ _ E) as [r1 [F1 _]].
    congruence.
  - destruct (derives_from_Exception e) eqn:X.
    + destruct (full_dispatch_request_returns _ _ _ _ _ E)
        as [resp [F [S Bd]]].
      exists (Returns resp). do 2 eexists. split; [exact F|].
      split; [|discriminate].
      intros ? Er. injection Er as <-. unfold body_field.
      rewrite (Bd (post_not_head _ Hm)). reflexivity.
    + exists (Raises e). do 2 eexists.
      split; [exact (full_dispatch_request_raises _ _ _ _ _ E)|].
      split; [discriminate|].
      intros ? Er. injection Er as <-. auto.
Qed.

(** *** The origin checker, in full *)

Lemma startswith_app (p s : str) : startswith p (p ++ s) = true.
Proof.
  induction p as [|x p IH]; simpl; [reflexivity|].
  rewrite N.eqb_refl. exact IH.
Qed.

Lemma str_contains_app (needle a b : str) :
  str_contains needle (a ++ needle ++ b) = true.
Proof.
  induction a as [|x a IH].
  - pose proof (startswith_app needle b) as H. simpl app.
    destruct (needle ++ b); simpl; rewrite H; reflexivity.
  - simpl. rewrite IH. apply orb_true_r.
Qed.

Lemma passes_origin_check_parts (o : str) :
  passes_origin_check o ->
  startswith (lit "https://") o = true /\
  str_contains (lit "unycompass") o = true /\
  str_contains (lit ".vercel.app") o = true.
Proof.
  intros [a [b [c [-> _]]]]. split; [apply startswith_app|]. split.
  - rewrite (app_assoc (lit "https://") a). apply str_contains_app.
  - replace (lit "https://" ++ a ++ lit "unycompass" ++ b
             ++ lit ".vercel.app" ++ c)
      with ((lit "https://" ++ a ++ lit "unycompass" ++ b)
            ++ lit ".vercel.app" ++ c)
      by (rewrite <- !app_assoc; reflexivity).
    apply str_contains_app.
Qed.

(** X15. [apply_cors] never changes the status, the body or the module
    state and never calls the collaborator.  It sets the four
    [Access-Control-*] headers, echoing the origin and allowing
    credentials, exactly for an [Origin] of the form
    [https://] ... [unycompass] ... [.vercel.app] ... (the first two
    gaps without a newline, the end free); for any other [Origin], and
    without one, it returns the response untouched. *)
Theorem apply_cors_sets_headers_exactly_on_match :
  forall (resp : response) req g,
    exists resp',
      apply_cors resp req g = (Returns resp', g, []) /\
      status_code resp' = status_code resp /\
      response_body resp' = response_body resp /\
      (forall o,
          Origin req = Some o -> passes_origin_check o ->
          header (lit "Access-Control-Allow-Origin") (headers resp')
          = Some o /\
          header (lit "Access-Control-Allow-Credentials") (headers resp')
          = Some (lit "true") /\
          header (lit "Access-Control-Allow-Methods") (headers resp')
          = Some (lit "GET, POST, OPTIONS") /\
          header (lit "Access-Control-Allow-Headers") (headers resp')
          = Some (lit "Content-Type, Authorization"))
      /\ ((forall o, Origin req = Some o -> ~ passes_origin_check o) ->
          resp' = resp).
Proof.
  intros resp req g. unfold apply_cors, bind, the_request.
  destruct (Origin req) as [[|c o]|] eqn:Ho.
  - exists resp. do 3 (split; [reflexivity|]). split; [|reflexivity].
    intros o' E [a [b [c' [-> _]]]]. discriminate E.
  - destruct (re_match origin_pattern (c :: o)) eqn:M.
    + eexists. do 3 (split; [reflexivity|]). split.
      * intros o' E _. injection E as <-.
        unfold with_header; cbn [headers].
        repeat split;
          rewrite ?header_set_header_other by reflexivity;
          apply header_set_header_same.
      * intros H. elim (H (c :: o) eq_refl).
        apply origin_pattern_spec. exact M.
    + exists resp. do 3 (split; [reflexivity|]). split; [|reflexivity].
      intros o' E P. injection E as <-.
      apply origin_pattern_spec in P. congruence.
  - exists resp. do 3 (split; [reflexivity|]). split; [|reflexivity].
    intros o' E. discriminate E.
Qed.

(** X16. [apply_cors] returns the response untouched whenever the
    [Origin] header is absent or empty, does not begin with [https://]
    (as written, in lower case), does not contain [unycompass] or does
    not contain [.vercel.app]; an origin served over plain [http] is
    never let through by it. *)
Theorem apply_cors_ignores_other_origins :
  forall (resp : response) req g,
    (forall o,
        Origin req = Some o ->
        startswith (lit "https://") o = false \/
        str_contains (lit "unycompass") o = false \/
        str_contains (lit ".vercel.app") o = false) ->
    apply_cors resp req g = (Returns resp, g, []).
Proof.
  intros resp req g H. unfold apply_cors, bind, the_request.
  destruct (Origin req) as [[|c o]|] eqn:Ho; try reflexivity.
  destruct (re_match origin_pattern (c :: o)) eqn:M; [|reflexivity].
  apply origin_pattern_spec, passes_origin_check_parts in M.
  destruct M as [M1 [M2 M3]].
  destruct (H (c :: o) eq_refl) as [E | [E | E]]; congruence.
Qed.

(** *** The confirmation of a reset *)

Lemma str_of_uint_inj (d d' : Decimal.uint) :
  str_of_uint d = str_of_uint d' -> d = d'.
Proof.
  revert d'; induction d; intros d'; destruct d'; simpl; intros E;
    try discriminate E; try reflexivity;
    injection E as E; f_equal; auto.
Qed.

Lemma str_of_int_inj (n n' : N) : str_of_int n = str_of_int n' -> n = n'.
Proof.
  unfold str_of_int. intros E.
  apply DecimalN.Unsigned.to_uint_inj, str_of_uint_inj, E.
Qed.

(** X17. The confirmation message of a reset identifies the session:
    two successful resets whose answers carry the same message were
    resets of the same session identifier. *)
Theorem reset_message_identifies_session :
  forall (n n' : N) req req' g g' (resp resp' : response)
         (g1 g1' : gateway Bot) (t t' : list event),
    reset_session_memory n req g = (Returns resp, g1, t) ->
    reset_session_memory n' req' g' = (Returns resp', g1', t') ->
    status_code resp = 200%N -> status_code resp' = 200%N ->
    body_field (lit "message") resp = body_field (lit "message") resp' ->
    n = n'.
Proof.
  assert (Msg : forall (n : N) req g (resp : response) (g1 : gateway Bot)
                       (t : list event),
             reset_session_memory n req g = (Returns resp, g1, t) ->
             status_code resp = 200%N ->
             body_field (lit "message") resp
             = Some (JStr (lit "Memory reset for session " ++ str_of_int n))).
  { intros n req g resp g1 t V S.
    destruct (reset_session_memory_cases n req g)
      as [[r0 [E [S0 _]]] | [b [R B]]].
    - rewrite E in V. injection V as <- _ _. rewrite S0 in S. discriminate.
    - rewrite (reset_session_memory_called n b req g R B) in V.
      destruct (clear_session_memory b n) as [[u|e] b'];
        [|destruct (derives_from_Exception e); [|discriminate V]];
        injection V as <- _ _; [reflexivity | discriminate S]. }
  intros n n' req req' g g' resp resp' g1 g1' t t' V V' S S' E.
  rewrite (Msg _ _ _ _ _ _ V S), (Msg _ _ _ _ _ _ V' S') in E.
  injection E as E. exact (str_of_int_inj _ _ E).
Qed.

(** *** A ready server *)

(** X18. After the startup and any number of requests, a server that
    reports ready has a bot to call: every [POST] to [/chat] or
    [/api/chatbot/ask] with a message that is not blank, on
    [/api/chatbot/ask] once the console has taken the line the handler
    prints, reaches [answer_question] with the stripped message.  It is
    answered unless that call raised an exception that does not derive
    from [Exception]. *)
Theorem ready_server_asks_the_bot :
  forall (requests : list request) req g (r : rule)
         (kvs : list (str * json)) (m : str),
    g = snd (fst (serve requests initialize)) ->
    method req = POST -> url_rule req = Some r ->
    r = rule_chat \/ r = rule_chatbot_ask ->
    get_json req = JObj kvs -> assoc (lit "message") kvs = Some (JStr m) ->
    forallb isspace m = false ->
    (r = rule_chatbot_ask -> print_refused [session_of kvs; JStr m] = false) ->
    CHATBOT_READY g = true ->
    exists o g' sid ex,
      full_dispatch_request req g
      = (o, g', [Event (Call_answer_question (strip m) sid) ex]) /\
      (forall e,
          o = Raises e -> ex = Some e /\ derives_from_Exception e = false).
Proof.
  intros requests req g r kvs m Hg Hm U Hr D A H P R.
  pose proof (serve_as_initialized requests initialize
                initialize_as_initialized) as I.
  rewrite <- Hg in I.
  destruct I as [[_ [_ [b B]]] | [R' _]]; [|congruence].
  assert (E : dispatch_request req g = view r req g)
    by (apply (post_dispatch _ _ _ Hm U); tauto).
  assert (V : exists sid,
             view r req g
             = match answer_question b (strip m) sid with
               | (Returns a, b') =>
                   (Returns (jsonify
                      (JObj ([(lit "question", JStr m);
                              (lit "response", a);
                              (lit "timestamp", JStr (datetime_now req))]
                             ++ match sid with
                                | Some v => [(lit "session_id", v)]
                                | None => []
                                end))),
                    set_bot g b',
                    [Event (Call_answer_question (strip m) sid) None])
               | (Raises e, b') =>
                   (if derives_from_Exception e
                    then Returns (with_status
                                    (jsonify (error_dict
                                       (lit "Error processing question: "
                                        ++ exc_text e))) 500)
                    else Raises e,
                    set_bot g b',
                    [Event (Call_answer_question (strip m) sid) (Some e)])
               end).
  { destruct Hr as [-> | ->]; unfold view.
    - exists None. exact (chat_answered kvs m b req g D A R H B).
    - exists (Some (session_of kvs)).
      exact (chatbot_ask_answered kvs m b req g (post_not_options _ Hm)
               D A (P eq_refl) R H B). }
  destruct V as [sid V]. rewrite V in E. clear V.
  destruct (answer_question b (strip m) sid) as [[a|e] b'];
    [|destruct (derives_from_Exception e) eqn:X].
  - destruct (full_dispatch_request_returns _ _ _ _ _ E) as [resp [F _]].
    exists (Returns resp). do 3 eexists. split; [exact F | discriminate].
  - destruct (full_dispatch_request_returns _ _ _ _ _ E) as [resp [F _]].
    exists (Returns resp). do 3 eexists. split; [exact F | discriminate].
  - exists (Raises e). do 3 eexists.
    split; [exact (full_dispatch_request_raises _ _ _ _ _ E)|].
    intros ? Er. injection Er as <-. auto.
Qed.

(** *** The line [chatbot_ask] prints *)

Lemma refused_text_has_surrogate (s : str) :
  existsb console_refuses s = true -> existsb is_surrogate s = true.
Proof.
  intros H. apply existsb_exists in H. destruct H as [c [I R]].
  apply existsb_exists. exists c.
  split; [exact I | exact (console_takes_text c R)].
Qed.

(** X20. [chatbot_ask] prints the session identifier and the message
    before it does anything with them, outside every [try].  When the
    console refuses that line, the [POST] to [/api/chatbot/ask] ends in
    [UnicodeEncodeError] whatever the readiness flag is: the state is
    unchanged and the collaborator is not called.  This happens only
    when the message or the session identifier is a string with a lone
    surrogate in it. *)
Theorem refused_log_line_raises :
  forall req g (kvs : list (str * json)) (v : json),
    method req = POST -> url_rule req = Some rule_chatbot_ask ->
    get_json req = JObj kvs -> assoc (lit "message") kvs = Some v ->
    print_refused [session_of kvs; v] = true ->
    (exists e,
        full_dispatch_request req g = (Raises e, g, []) /\
        exc_class e = lit "UnicodeEncodeError")
    /\ (has_lone_surrogate (session_of kvs) = true \/
        has_lone_surrogate v = true).
Proof.
  intros req g kvs v Hm U D A P. split.
  - exists UnicodeEncodeError. split; [|reflexivity].
    apply full_dispatch_request_raises.
    rewrite (post_dispatch rule_chatbot_ask req g Hm U) by auto.
    exact (chatbot_ask_not_logged kvs v req g (post_not_options _ Hm) D A P).
  - unfold print_refused in P. cbn [existsb] in P.
    rewrite orb_false_r in P. apply orb_true_iff in P.
    unfold has_lone_surrogate.
    destruct P as [P | P]; [left | right];
      exact (refused_text_has_surrogate _ P).
Qed.

End Properties.

(** ** The properties on stub collaborators *)

(** C2. The origin checker lets through an origin that is neither on
    the allow-list nor under [.vercel.app]:
    [https://unycompass.vercel.app.evil.example.com] is answered with
    [Access-Control-Allow-Origin] echoing it and with credentials
    allowed.  Of the two usual sample origins,
    [https://foo.unycompass.vercel.app] is echoed and
    [https://evil.example.com] gets no such header. *)
Theorem foreign_origin_is_granted_cors :
  let hunter_ai := working_stub (lit "Hello") in
  let g := initialize in
  let answer (origin : str) :=
    fst (fst (full_dispatch_request (bare GET rule_status (Some origin)) g)) in
  let allow_origin (o : outcome response) :=
    match o with
    | Returns resp => header (lit "Access-Control-Allow-Origin") (headers resp)
    | Raises _ => None
    end in
  let allow_credentials (o : outcome response) :=
    match o with
    | Returns resp =>
        header (lit "Access-Control-Allow-Credentials") (headers resp)
    | Raises _ => None
    end in
  let foreign := lit "https://unycompass.vercel.app.evil.example.com" in
  endswith (lit ".vercel.app") foreign = false /\
  existsb (str_eqb foreign) (origins CORS_app) = false /\
  allow_origin (answer foreign) = Some foreign /\
  allow_credentials (answer foreign) = Some (lit "true") /\
  allow_origin (answer (lit "https://foo.unycompass.vercel.app"))
  = Some (lit "https://foo.unycompass.vercel.app") /\
  allow_origin (answer (lit "https://evil.example.com")) = None.
Proof. vm_compute. repeat split. Qed.





(** Not every exception of the collaborator is caught: when
    [answer_question] or [clear_session_memory] ends in [sys.exit], the
    [SystemExit] leaves the handler of [POST /chat] and of the reset
    route, and no response is made of it. *)
Lemma collaborator_exit_is_not_caught :
  let hunter_ai := exiting_stub (lit "bye") in
  let e := BaseException (lit "SystemExit") (lit "bye") false in
  full_dispatch_request
    (post rule_chat (JObj [(lit "message", JStr (lit "hello"))])) initialize
  = (Raises e, set_bot initialize 1,
     [Event (Call_answer_question (lit "hello") None) (Some e)])
  /\ full_dispatch_request (post (rule_reset_session_memory 7) JNull)
                           initialize
     = (Raises e, set_bot initialize 1,
        [Event (Call_clear_session_memory 7) (Some e)]).
Proof. split; vm_compute; reflexivity. Qed.

Lemma collaborator_exception_is_answered_500_witness :
  let hunter_ai := raising_stub (lit "kaboom") in
  let req := post rule_chat (JObj [(lit "message", JStr (lit "hello"))]) in
  exists resp text,
    fst (fst (full_dispatch_request req initialize)) = Returns resp /\
    status_code resp = 500%N /\
    body_field (lit "error") resp = Some (JStr (text ++ lit "kaboom")).
Proof.
  intros hunter_ai req.
  apply (collaborator_exception_is_answered_500
           req initialize
           (fst (fst (full_dispatch_request req initialize)))
           (snd (fst (full_dispatch_request req initialize)))
           (snd (full_dispatch_request req initialize))
           (Call_answer_question (lit "hello") None)
           (Exc (lit "RuntimeError") (lit "kaboom"))).
  - reflexivity.
  - left. reflexivity.
  - reflexivity.
Defined.

Lemma chat_relays_the_answer_witness :
  let hunter_ai := working_stub (lit "Hello") in
  let req := post rule_chat (JObj [(lit "message", JStr (lit "  hello "))]) in
  exists resp,
    full_dispatch_request req initialize
    = (Returns resp, set_bot initialize 1,
       [Event (Call_answer_question (lit "hello") None) None]) /\
    status_code resp = 200%N /\
    body_field (lit "response") resp = Some (JStr (lit "Hello")) /\
    body_field (lit "question") resp = Some (JStr (lit "  hello ")) /\
    body_field (lit "timestamp") resp = Some (JStr (datetime_now req)).
Proof.
  intros hunter_ai req.
  apply (chat_relays_the_answer
           req initialize [(lit "message", JStr (lit "  hello "))]
           (lit "  hello ") (lit "Hello") 0 1); reflexivity.
Defined.

Lemma chatbot_ask_passes_session_id_witness :
  let hunter_ai := working_stub (lit "Hello") in
  let kvs := [(lit "message", JStr (lit "hello"));
              (lit "session_id", JInt 42)] in
  let served := full_dispatch_request (post rule_chatbot_ask (JObj kvs))
                                      initialize in
  let resp := match fst (fst served) with
              | Returns resp => resp
              | Raises _ => jsonify JNull
              end in
  served = (Returns resp, snd (fst served), snd served) /\
  status_code resp = 200%N /\
  body_field (lit "session_id") resp = Some (JInt 42) /\
  exists m,
    assoc (lit "message") kvs = Some (JStr m) /\
    snd served = [Event (Call_answer_question (strip m) (Some (JInt 42)))
                        None].
Proof.
  intros hunter_ai kvs served resp.
  split; [reflexivity|]. split; [reflexivity|].
  apply (chatbot_ask_passes_session_id
           (post rule_chatbot_ask (JObj kvs)) initialize kvs (JInt 42)
           resp (snd (fst served)) (snd served)); reflexivity.
Defined.


Lemma options_request_is_empty_200_witness :
  let hunter_ai := failing_stub (lit "db down") eq_refl in
  let req := bare OPTIONS (rule_reset_session_memory 7)
                  (Some (lit "http://localhost:3000")) in
  exists resp,
    full_dispatch_request req initialize = (Returns resp, initialize, []) /\
    status_code resp = 200%N /\
    response_body resp = Text [].
Proof.
  intros hunter_ai req.
  apply (options_request_is_empty_200
           req initialize (rule_reset_session_memory 7)); reflexivity.
Defined.

Lemma readiness_flag_is_read_only_witness :
  let hunter_ai := working_stub (lit "Hello") in
  let ask := post rule_chat (JObj [(lit "message", JStr (lit "hello"))]) in
  let look := bare GET rule_status None in
  (CHATBOT_READY (snd (fst (serve [ask; look; ask] initialize)))
   = CHATBOT_READY initialize /\
   CHATBOT_ERROR (snd (fst (serve [ask; look; ask] initialize)))
   = CHATBOT_ERROR initialize)
  /\ exists o, full_dispatch_request look initialize = (o, initialize, []).
Proof.
  intros hunter_ai ask look. split.
  - apply (proj1 (proj2 readiness_flag_is_read_only)).
  - apply (proj2 (proj2 readiness_flag_is_read_only)
                 look initialize rule_status eq_refl).
    right. left. reflexivity.
Defined.

(** C10.  A valid message is not always passed on.  The message
    [" \ud800"], one space and a lone surrogate, is a string that is not
    blank and has leading whitespace.  [POST /chat] serves it: the bot
    is asked the stripped message, and the 200 answer echoes the message
    as it was sent.  [POST /api/chatbot/ask] with the same body, on a
    console that writes UTF-8, ends in [UnicodeEncodeError] at the line
    the handler prints before it calls the helper: the bot is not
    called and no answer is made. *)
Theorem valid_message_fails_at_the_log_line :
  let hunter_ai := working_stub (lit "Hello") in
  let console := utf8_strict in
  let m := [32%N; 55296%N] in
  let body := JObj [(lit "message", JStr m)] in
  forallb isspace m = false /\
  starts_with_space m = true /\
  strip m = [55296%N] /\
  (exists resp,
      full_dispatch_request (post rule_chat body) initialize
      = (Returns resp, set_bot initialize 1,
         [Event (Call_answer_question [55296%N] None) None]) /\
      status_code resp = 200%N /\
      body_field (lit "question") resp = Some (JStr m))
  /\ (exists e,
         full_dispatch_request (post rule_chatbot_ask body) initialize
         = (Raises e, initialize, []) /\
         exc_class e = lit "UnicodeEncodeError").
Proof.
  do 3 (split; [vm_compute; reflexivity|]). split.
  - eexists. split; [vm_compute; reflexivity|]. split; reflexivity.
  - eexists. split; [vm_compute; reflexivity|]. reflexivity.
Qed.


(** ** The further properties on stub collaborators *)

Lemma status_reports_the_startup_witness :
  (let hunter_ai := failing_stub (lit "db down") eq_refl in
   let ask := post rule_chat (JObj [(lit "message", JStr (lit "hello"))]) in
   let req := bare GET rule_status None in
   let g := snd (fst (serve [ask] initialize)) in
   exists resp,
     full_dispatch_request req g = (Returns resp, g, []) /\
     status_code resp = 200%N /\
     body_field (lit "chatbot_ready") resp = Some (JBool false) /\
     body_field (lit "status") resp = Some (JStr (lit "error")) /\
     body_field (lit "error") resp = Some (JStr (lit "db down")))
  /\ (let hunter_ai := working_stub (lit "Hello") in
      let ask := post rule_chat (JObj [(lit "message", JStr (lit "hello"))]) in
      let req := bare GET rule_status None in
      let g := snd (fst (serve [ask] initialize)) in
      exists resp,
        full_dispatch_request req g = (Returns resp, g, []) /\
        status_code resp = 200%N /\
        body_field (lit "chatbot_ready") resp = Some (JBool true) /\
        body_field (lit "status") resp = Some (JStr (lit "ready")) /\
        body_field (lit "error") resp = Some JNull).
Proof.
  split; intros hunter_ai ask req g;
    pose proof (status_reports_the_startup [ask] req g) as T;
    destruct (T eq_refl eq_refl eq_refl) as [resp [E [S [Ok Failed]]]];
    exists resp; (split; [exact E|]); (split; [exact S|]).
  - apply (Failed (Exc (lit "RuntimeError") (lit "db down"))).
    left. reflexivity.
  - apply Ok. exists tt, 0. split; reflexivity.
Defined.

Lemma status_code_tells_error_payload_witness :
  let hunter_ai := raising_stub (lit "kaboom") in
  let req := post rule_chat (JObj [(lit "message", JStr (lit "hello"))]) in
  let served := full_dispatch_request req initialize in
  let resp := match fst (fst served) with
              | Returns resp => resp
              | Raises _ => jsonify JNull
              end in
  (status_code resp = 200%N /\ body_field (lit "error") resp = None)
  \/ ((status_code resp = 400%N \/ status_code resp = 500%N) /\
      exists text, body_field (lit "error") resp = Some (JStr text)).
Proof.
  intros hunter_ai req served resp.
  apply (status_code_tells_error_payload
           req initialize rule_chat resp (snd (fst served)) (snd served));
    first [reflexivity | left; reflexivity].
Defined.

Lemma non_string_message_raises_attribute_error_witness :
  let hunter_ai := working_stub (lit "Hello") in
  full_dispatch_request
    (post rule_chatbot_ask (JObj [(lit "message", JInt 5)])) initialize
  = (Raises (AttributeError (lit "int") (lit "strip")), initialize, []).
Proof.
  intros hunter_ai.
  apply (non_string_message_raises_attribute_error
           (post rule_chatbot_ask (JObj [(lit "message", JInt 5)]))
           initialize rule_chatbot_ask [(lit "message", JInt 5)] (JInt 5));
    first [reflexivity | right; reflexivity | discriminate
          | intros _; reflexivity].
Defined.

Lemma falsy_message_is_answered_500_witness :
  let hunter_ai := working_stub (lit "Hello") in
  let kvs := [(lit "message", JNull); (lit "session_id", JStr (lit "s1"))] in
  exists resp,
    full_dispatch_request (post rule_chatbot_ask (JObj kvs)) initialize
    = (Returns resp, initialize, []) /\
    status_code resp = 500%N /\
    body_field (lit "error") resp
    = Some (JStr (lit "Question cannot be empty")).
Proof.
  intros hunter_ai kvs.
  apply (falsy_message_is_answered_500
           (post rule_chatbot_ask (JObj kvs))
           initialize rule_chatbot_ask kvs JNull);
    first [reflexivity | right; reflexivity | intros _; reflexivity].
Defined.

Lemma body_without_message_is_answered_400_witness :
  let hunter_ai := working_stub (lit "Hello") in
  exists resp,
    full_dispatch_request
      (post rule_chat (JArr [JStr (lit "hello")])) initialize
    = (Returns resp, initialize, []) /\
    status_code resp = 400%N /\
    body_field (lit "error") resp
    = Some (JStr (lit "Please provide a 'message' field in your request")).
Proof.
  intros hunter_ai.
  apply (body_without_message_is_answered_400
           (post rule_chat (JArr [JStr (lit "hello")])) initialize rule_chat);
    first [reflexivity | left; reflexivity | idtac].
  right. left. exists [JStr (lit "hello")]. split; reflexivity.
Defined.

Lemma non_object_body_raises_type_error_witness :
  let hunter_ai := working_stub (lit "Hello") in
  exists e,
    full_dispatch_request
      (post rule_chat (JArr [JStr (lit "message")])) initialize
    = (Raises e, initialize, []) /\
    exc_class e = lit "TypeError".
Proof.
  intros hunter_ai.
  apply (non_object_body_raises_type_error
           (post rule_chat (JArr [JStr (lit "message")])) initialize
           rule_chat);
    first [reflexivity | left; reflexivity | discriminate | idtac].
  intros l E. injection E as <-. reflexivity.
Defined.

Lemma exceptions_that_leave_a_handler_witness :
  let hunter_ai := exiting_stub (lit "bye") in
  let req := post (rule_reset_session_memory 7) JNull in
  let e := BaseException (lit "SystemExit") (lit "bye") false in
  let g := initialize in
  let g' := set_bot initialize 1 in
  let t := [Event (Call_clear_session_memory 7) (Some e)] in
  method req = POST /\
  exists r,
    url_rule req = Some r /\
    ((g' = g /\ t = [] /\
      (r = rule_chat \/ r = rule_chatbot_ask) /\
      ((exc_class e = lit "TypeError" /\
        forall kvs, get_json req <> JObj kvs)
       \/ (exc_class e = lit "UnicodeEncodeError" /\
           r = rule_chatbot_ask /\
           exists kvs v,
             get_json req = JObj kvs /\
             assoc (lit "message") kvs = Some v /\
             print_refused [session_of kvs; v] = true)
       \/ (exc_class e = lit "AttributeError" /\
           CHATBOT_READY g = true /\
           exists kvs v,
             get_json req = JObj kvs /\
             assoc (lit "message") kvs = Some v /\
             (forall m, v <> JStr m) /\ truthy v = true)))
     \/ (derives_from_Exception e = false /\ CHATBOT_READY g = true /\
         exists c b',
           call_of r req c /\ t = [Event c (Some e)] /\
           g' = set_bot g b')).
Proof.
  intros hunter_ai req e g g' t.
  apply (exceptions_that_leave_a_handler req g e g' t).
  reflexivity.
Defined.

Lemma bot_is_never_asked_a_blank_question_witness :
  let hunter_ai := working_stub (lit "Hello") in
  let ask := post rule_chat (JObj [(lit "message", JStr (lit "  hello "))]) in
  lit "hello" <> [] /\
  starts_with_space (lit "hello") = false /\
  starts_with_space (rev (lit "hello")) = false.
Proof.
  intros hunter_ai ask.
  apply (bot_is_never_asked_a_blank_question [ask] initialize
           (lit "hello") None None).
  left. reflexivity.
Defined.

Lemma chatbot_ask_without_session_id_witness :
  let hunter_ai := working_stub (lit "Hello") in
  let req := post rule_chatbot_ask
                  (JObj [(lit "message", JStr (lit "hello"))]) in
  exists resp,
    full_dispatch_request req initialize
    = (Returns resp, set_bot initialize 1,
       [Event (Call_answer_question (lit "hello") (Some JNull)) None]) /\
    status_code resp = 200%N /\
    body_field (lit "session_id") resp = Some JNull /\
    body_field (lit "response") resp = Some (JStr (lit "Hello")).
Proof.
  intros hunter_ai req.
  apply (chatbot_ask_without_session_id
           req initialize [(lit "message", JStr (lit "hello"))]
           (lit "hello") (JStr (lit "Hello")) 0 1); reflexivity.
Defined.

Lemma chat_ignores_session_id_witness :
  let hunter_ai := working_stub (lit "Hello") in
  let kvs := [(lit "message", JStr (lit "hello"));
              (lit "session_id", JInt 42)] in
  exists o g' ex,
    full_dispatch_request (post rule_chat (JObj kvs)) initialize
    = (o, g', [Event (Call_answer_question (strip (lit "hello")) None) ex]) /\
    (forall resp,
        o = Returns resp -> body_field (lit "session_id") resp = None) /\
    (forall e,
        o = Raises e -> ex = Some e /\ derives_from_Exception e = false).
Proof.
  intros hunter_ai kvs.
  apply (chat_ignores_session_id
           (post rule_chat (JObj kvs)) initialize kvs (lit "hello") 0);
    reflexivity.
Defined.

Lemma apply_cors_sets_headers_exactly_on_match_witness :
  let origin := lit "https://foo.unycompass.vercel.app" in
  let req := bare GET rule_status (Some origin) in
  let g := initialize (hunter_ai := working_stub (lit "Hello")) in
  exists resp',
    apply_cors (jsonify JNull) req g = (Returns resp', g, []) /\
    header (lit "Access-Control-Allow-Origin") (headers resp') = Some origin.
Proof.
  intros origin req g.
  destruct (apply_cors_sets_headers_exactly_on_match (jsonify JNull) req g)
    as [resp' [E [_ [_ [G _]]]]].
  exists resp'. split; [exact E|].
  apply (G origin eq_refl).
  exists (lit "foo."), [], []. split; [reflexivity|].
  split; [|constructor].
  repeat (constructor; [discriminate|]). constructor.
Defined.

Lemma apply_cors_ignores_other_origins_witness :
  let req := bare GET rule_status (Some (lit "http://unycompass.vercel.app")) in
  let g := initialize (hunter_ai := working_stub (lit "Hello")) in
  apply_cors (jsonify JNull) req g = (Returns (jsonify JNull), g, []).
Proof.
  intros req g.
  apply (apply_cors_ignores_other_origins (jsonify JNull) req g).
  intros o E. injection E as <-. left. reflexivity.
Defined.

Lemma reset_message_identifies_session_witness :
  let hunter_ai := working_stub (lit "Hello") in
  let req := post (rule_reset_session_memory 7) JNull in
  let served := reset_session_memory 7 req initialize in
  let resp := match fst (fst served) with
              | Returns resp => resp
              | Raises _ => jsonify JNull
              end in
  served = (Returns resp, snd (fst served), snd served) /\
  status_code resp = 200%N /\ 7%N = 7%N.
Proof.
  intros hunter_ai req served resp.
  split; [reflexivity|]. split; [reflexivity|].
  apply (reset_message_identifies_session
           7 7 req req initialize initialize resp resp
           (snd (fst served)) (snd (fst served)) (snd served) (snd served));
    reflexivity.
Defined.

Lemma ready_server_asks_the_bot_witness :
  let hunter_ai := working_stub (lit "Hello") in
  let look := bare GET rule_status None in
  let kvs := [(lit "message", JStr (lit " hello"));
              (lit "session_id", JStr (lit "s1"))] in
  let req := post rule_chatbot_ask (JObj kvs) in
  let g := snd (fst (serve [look] initialize)) in
  exists o g' sid ex,
    full_dispatch_request req g
    = (o, g', [Event (Call_answer_question (strip (lit " hello")) sid) ex]) /\
    (forall e,
        o = Raises e -> ex = Some e /\ derives_from_Exception e = false).
Proof.
  intros hunter_ai look kvs req g.
  apply (ready_server_asks_the_bot
           [look] req g rule_chatbot_ask kvs (lit " hello"));
    first [reflexivity | right; reflexivity | intros _; reflexivity].
Defined.

Lemma logged_question_reaches_bot_stripped_witness :
  let hunter_ai := working_stub (lit "Hello") in
  let m := lit "  hello " in
  let req := post rule_chatbot_ask
                  (JObj [(lit "message", JStr m);
                         (lit "session_id", JInt 42)]) in
  exists o g' q sid ex left right,
    full_dispatch_request req initialize
    = (o, g', [Event (Call_answer_question q sid) ex]) /\
    q = strip m /\
    m = left ++ q ++ right /\
    forallb isspace left = true /\ forallb isspace right = true /\
    starts_with_space q = false /\ starts_with_space (rev q) = false /\
    (ex = None ->
     exists resp,
       o = Returns resp /\
       status_code resp = 200%N /\
       body_field (lit "question") resp = Some (JStr m)).
Proof.
  intros hunter_ai m req.
  apply (logged_question_reaches_bot_stripped
           req initialize rule_chatbot_ask
           [(lit "message", JStr m); (lit "session_id", JInt 42)] m 0);
    first [reflexivity | right; reflexivity | intros _; reflexivity].
Defined.

Lemma refused_log_line_raises_witness :
  let hunter_ai := failing_stub (lit "db down") eq_refl in
  let kvs := [(lit "message", JStr (lit "hello"));
              (lit "session_id", JStr [55296%N])] in
  let req := post rule_chatbot_ask (JObj kvs) in
  (exists e,
      full_dispatch_request req initialize = (Raises e, initialize, []) /\
      exc_class e = lit "UnicodeEncodeError")
  /\ (has_lone_surrogate (session_of kvs) = true \/
      has_lone_surrogate (JStr (lit "hello")) = true).
Proof.
  intros hunter_ai kvs req.
  apply (refused_log_line_raises req initialize kvs (JStr (lit "hello")));
    reflexivity.
Defined.

Lemma other_exception_leaves_the_handler_witness :
  let hunter_ai := exiting_stub (lit "bye") in
  let req := post rule_chat (JObj [(lit "message", JStr (lit "hello"))]) in
  let e := BaseException (lit "SystemExit") (lit "bye") false in
  fst (fst (full_dispatch_request req initialize)) = Raises e.
Proof.
  intros hunter_ai req e.
  apply (other_exception_leaves_the_handler
           req initialize
           (fst (fst (full_dispatch_request req initialize)))
           (snd (fst (full_dispatch_request req initialize)))
           (snd (full_dispatch_request req initialize))
           (Call_answer_question (lit "hello") None) e).
  - reflexivity.
  - left. reflexivity.
  - reflexivity.
Defined.
